(** * facial-recognition-mvp: frame validation, similarity matching,
      enrollment and its on-disk store

    A shallow embedding of [backend/app/face_processor.py],
    [backend/app/storage.py] and the [/enroll] and [/verify] handlers of
    [backend/app/main.py].

    Numbers.  Python [int]s are [Z].  A float of the similarity engine that
    is not NaN is read as a real number ([R]): a finite float as the number
    it denotes, an infinity as a number beyond every finite float.  What
    NumPy computes on floats (the norm, the sum, the quotient, the dot
    product) is rounded and is not computed here: these operations and the
    cast to float32 are parameters, constrained by the few facts of
    floating-point arithmetic that the theorems use.  Comparisons and the
    maximum are exact on floats and are those of [R].  The face ratio of the frame validator, a
    quotient of two integers compared with the literal [0.05], is a rational
    ([Q]) so that the validator computes.

    Effects.  The clock, the two files of the store and a log of the
    operations executed are the fields of [world]; stateful code is a
    function [world -> A * world].  Python exceptions are values of [exn];
    code that may raise returns [exn + A]. *)

From Stdlib Require Import String Ascii List ZArith QArith Bool Lia Arith.
From Stdlib Require Import Reals Lra Psatz.
From Stdlib Require Import DecimalString.
From Stdlib Require Import Permutation.
Import ListNotations.

Local Open Scope string_scope.

(** ** Python values shared by the modules *)

(** A raised exception: its class and [str(e)]. *)
Inductive exn_class :=
| ValueError | KeyError | ZeroDivisionError | TypeError | OSError
| CvError | BinasciiError | OtherError.

Record exn := Raise { exn_cls : exn_class; exn_str : string }.

Definition str (e : exn) : string := exn_str e.

(** [f"{n}"] for a Python int. *)
Definition str_int (n : Z) : string := NilZero.string_of_int (Z.to_int n).

(** [len(l)] as a Python int. *)
Definition len {A} (l : list A) : Z := Z.of_nat (length l).

(** ** The NumPy operations used *)

Module Numpy.

Local Open Scope R_scope.

(** A 1-D array, or a 2-D array given by its rows; without rows the second
    dimension of a 2-D array is not recorded. *)
Inductive ndarray :=
| Arr1 (v : list R)
| Arr2 (rows : list (list R)).

(** What a reduction or a product returns: a scalar or a 1-D array. *)
Inductive scalar_or_array :=
| Scalar (x : R)
| Vector (v : list R).

(** *** Floating point

    The elements of an array and the NumPy scalars are floats.  What NumPy
    computes on them is rounded and may overflow or underflow, so it is not
    computed here: the four operations the code uses are the fields of
    [FloatArithmetic].  The laws are the facts about these operations that
    the theorems use; each holds of IEEE 754 arithmetic on floats that are
    not NaN (an overflow to infinity included), in every precision and
    whatever the order of a summation.

    The norms of the rows of a matrix ([axis=1]) are [linalg_norm] of each
    row, and the product of a matrix with a 1-D array or with a transposed
    matrix is [float_dot] entry by entry.  [np.dot] multiplies 1-D arrays of
    one length only; [float_dot] is any extension of it. *)
Class FloatArithmetic := {
  (** [np.linalg.norm(v)] on a 1-D array. *)
  linalg_norm : list R -> R;
  (** [x + y] and [x / y] on two floats. *)
  float_add : R -> R -> R;
  float_div : R -> R -> R;
  (** [np.dot(u, v)] on two 1-D arrays of one length. *)
  float_dot : list R -> list R -> R;
  (** A norm is not negative. *)
  linalg_norm_nonneg : forall v, 0 <= linalg_norm v;
  (** Rounding is monotone: a sum with a positive float is not rounded
      below it. *)
  float_add_pos : forall x y, 0 <= x -> 0 < y -> 0 < float_add x y;
  (** Zero divided by a positive float is zero. *)
  float_div_zero : forall d, 0 < d -> float_div 0 d = 0;
  (** A sum of products that are all zero is zero. *)
  float_dot_zeros : forall n, float_dot (repeat 0 n) (repeat 0 n) = 0;
  (** The product of two floats does not depend on their order. *)
  float_dot_comm : forall u v, float_dot u v = float_dot v u
}.

Section Arrays.
Context `{FloatArithmetic}.

(** [v / d]: every component divided by the scalar [d]. *)
Definition div_scalar (v : list R) (d : R) : list R :=
  map (fun x => float_div x d) v.

(** [str(shape)] of a 1-D array of [n] elements, as the messages of
    [np.dot] print it. *)
Definition shape1 (n : nat) : string := "(" ++ str_int (Z.of_nat n) ++ ",)".

(** The [ValueError] of [np.dot] on 1-D arrays of [n] and of [m]
    elements. *)
Definition shapes_not_aligned1 (n m : nat) : exn :=
  Raise ValueError
    ("shapes " ++ shape1 n ++ " and " ++ shape1 m ++ " not aligned: "
     ++ str_int (Z.of_nat n) ++ " (dim 0) != "
     ++ str_int (Z.of_nat m) ++ " (dim 0)").

(** The [ValueError] of [np.dot] on a matrix and a 1-D array.  The text of
    the code's exception goes on with the two shapes; rows do not record the
    shape of every matrix, and the text stops here. *)
Definition shapes_not_aligned : exn :=
  Raise ValueError "shapes not aligned".

(** [np.dot(u, v)] on two 1-D arrays: raises unless the lengths agree. *)
Definition dot11 (u v : list R) : exn + R :=
  if Nat.eqb (length u) (length v) then inr (float_dot u v)
  else inl (shapes_not_aligned1 (length u) (length v)).

(** [np.dot(m, v)] on an (N, D) array and a 1-D array: raises unless every
    row has the length of [v]; one product per row, in row order. *)
Definition dot21 (m : list (list R)) (v : list R) : exn + list R :=
  if forallb (fun row => Nat.eqb (length row) (length v)) m
  then inr (map (fun row => float_dot row v) m)
  else inl shapes_not_aligned.

End Arrays.

(** [np.max]: raises on a zero-size array. *)
Definition max (x : scalar_or_array) : exn + R :=
  match x with
  | Scalar s => inr s
  | Vector [] =>
      inl (Raise ValueError
        "zero-size array to reduction operation maximum which has no identity")
  | Vector (s :: rest) => inr (fold_left Rmax rest s)
  end.

(** [np.stack(arrays, axis=0)] on 1-D arrays: raises on an empty list and on
    arrays of different shapes. *)
Definition stack (arrays : list (list R)) : exn + list (list R) :=
  match arrays with
  | [] => inl (Raise ValueError "need at least one array to stack")
  | a :: rest =>
      if forallb (fun b => Nat.eqb (length b) (length a)) rest
      then inr arrays
      else inl (Raise ValueError "all input arrays must have the same shape")
  end.

End Numpy.


(** ** The world: clock, store files, log *)

(** A decoded image: [img.shape[:2]] and the pixel data. *)
Record decoded_image := {
  img_height : Z;
  img_width : Z;
  img_pixels : list Byte.byte
}.

(** The operations whose execution the properties below talk about, logged
    as they run: a call of the embedding extractor, the division of the face
    area by the image area, and the other arm of that conditional
    expression. *)
Inductive event :=
| EvRepresent (img : decoded_image)
| EvTrueDiv (num den : Z)
| EvRatioFallback.

(** A file of the store directory: absent, present but not readable as what
    it should hold (truncated, corrupt, the key missing), or holding a
    value. *)
Inductive file (A : Type) :=
| Missing
| Unreadable
| Holds (content : A).
Arguments Missing {A}.
Arguments Unreadable {A}.
Arguments Holds {A} content.

(** What [np.savez_compressed] writes: the three keyword arrays. *)
Record npz := {
  npz_embeddings : list (list R);
  npz_version : string;
  npz_timestamp : string
}.

(** One entry of [valid_metadata], with the values of the frame result it
    copies. *)
Record frame_metadata := {
  m_pose : string;
  m_timestamp : string;
  m_confidence : option Q;
  m_face_ratio : option Q
}.

(** [metadata_to_save], the JSON document. *)
Record metadata_doc := {
  md_version : string;
  md_timestamp : string;
  md_count : Z;
  md_frames : list frame_metadata
}.

Inductive path := embeddings_path | metadata_path.

(** What writing a file does on this disk: it succeeds, it raises [OSError]
    before the file is touched (no permission, the path is a directory), or it
    raises after the file was truncated (disk full). *)
Inductive write_outcome := Written | FailsUntouched | FailsTruncated.

Record world := {
  clock : nat;
  log : list event;
  embeddings_file : file npz;
  metadata_file : file metadata_doc;
  disk : path -> write_outcome
}.

Definition M (A : Type) : Type := world -> A * world.

Definition ret {A} (a : A) : M A := fun w => (a, w).

Definition bind {A B} (m : M A) (k : A -> M B) : M B :=
  fun w => let (a, w') := m w in k a w'.

Notation "x <- m ;; k" := (bind m (fun x => k))
  (at level 61, m at next level, right associativity).
Notation "m ;;; k" := (bind m (fun _ => k))
  (at level 61, right associativity).

Definition emit (e : event) : M unit :=
  fun w => (tt, {| clock := clock w; log := (log w ++ [e])%list;
                   embeddings_file := embeddings_file w;
                   metadata_file := metadata_file w; disk := disk w |}).

Definition set_embeddings_file (f : file npz) : M unit :=
  fun w => (tt, {| clock := clock w; log := log w;
                   embeddings_file := f;
                   metadata_file := metadata_file w; disk := disk w |}).

Definition set_metadata_file (f : file metadata_doc) : M unit :=
  fun w => (tt, {| clock := clock w; log := log w;
                   embeddings_file := embeddings_file w;
                   metadata_file := f; disk := disk w |}).

(** ** External collaborators *)

(** One detected face as DeepFace returns it: a dict that may lack either
    key; the facial area is a dict that may lack any of its keys. *)
Record facial_area_dict := {
  fa_x : option Z;
  fa_y : option Z;
  fa_w : option Z;
  fa_h : option Z
}.

Record face_dict := {
  fd_embedding : option (list R);
  fd_facial_area : option facial_area_dict
}.

Inductive deepface_result :=
| NotAList
| FaceList (faces : list face_dict).

(** The library calls the code makes and this development does not look
    into. *)
Class Externals := {
  (** [cv2.imdecode(np.frombuffer(data, np.uint8), cv2.IMREAD_COLOR)]:
      an image, [None], or a raised [cv2.error]. *)
  imdecode : list Byte.byte -> exn + option decoded_image;
  (** [DeepFace.represent(img, detector_backend='retinaface',
      model_name='Facenet512', enforce_detection=True, align=True)]. *)
  represent : decoded_image -> exn + deepface_result;
  (** The rounding of [np.array(..., dtype=np.float32)]. *)
  float32 : R -> R;
  (** NumPy's arithmetic on floats. *)
  arithmetic :: Numpy.FloatArithmetic;
  (** [datetime.utcnow().isoformat()] at a clock reading. *)
  isoformat : nat -> string;
  (** [f"{x:.4f}"] on a ratio and on a similarity, and [f"{x}"]. *)
  format_4f : Q -> string;
  format_4f_R : R -> string;
  format_R : R -> string;
  (** [base64.b64decode]. *)
  b64decode : string -> exn + list Byte.byte
}.

(** [datetime.utcnow().isoformat()]: reads the clock, which then moves on. *)
Definition utcnow_isoformat `{Externals} : M string :=
  fun w => (isoformat (clock w),
            {| clock := S (clock w); log := log w;
               embeddings_file := embeddings_file w;
               metadata_file := metadata_file w; disk := disk w |}).

(** ** [face_processor.py]: class [FaceProcessor] *)

Module FaceProcessor.

Import Numpy.
Local Open Scope R_scope.

(** The constant added to every norm. *)
Definition epsilon : R := 1e-8.

Section Similarity.
Context `{FloatArithmetic}.

(** [_cosine_similarity(a, b)]. *)
Definition _cosine_similarity (a : list R) (b : ndarray)
  : exn + scalar_or_array :=
  let a_norm := div_scalar a (float_add (linalg_norm a) epsilon) in
  match b with
  | Arr1 bv =>
      let b_norm := div_scalar bv (float_add (linalg_norm bv) epsilon) in
      match dot11 a_norm b_norm with
      | inl e => inl e
      | inr similarity => inr (Scalar similarity)
      end
  | Arr2 rows =>
      let b_norm :=
        map (fun row => div_scalar row (float_add (linalg_norm row) epsilon))
            rows in
      match dot21 b_norm a_norm with
      | inl e => inl e
      | inr similarities => inr (Vector similarities)
      end
  end.

(** The similarity of two vectors of one length, as a number. *)
Definition cosine (a b : list R) : R :=
  float_dot (div_scalar a (float_add (linalg_norm a) epsilon))
            (div_scalar b (float_add (linalg_norm b) epsilon)).

End Similarity.


(** The dict [result] of [process_frame]. *)
Record FrameResult := {
  embedding : option (list R);
  confidence : option Q;
  face_area : option Z;
  face_ratio : option Q;
  pose_label : string;
  timestamp : string;
  error : option string
}.

Definition set_error (r : FrameResult) (e : option string) : FrameResult :=
  {| embedding := embedding r; confidence := confidence r;
     face_area := face_area r; face_ratio := face_ratio r;
     pose_label := pose_label r; timestamp := timestamp r; error := e |}.

Definition set_embedding (r : FrameResult) (v : list R) : FrameResult :=
  {| embedding := Some v; confidence := confidence r;
     face_area := face_area r; face_ratio := face_ratio r;
     pose_label := pose_label r; timestamp := timestamp r; error := error r |}.

Definition set_confidence (r : FrameResult) (c : Q) : FrameResult :=
  {| embedding := embedding r; confidence := Some c;
     face_area := face_area r; face_ratio := face_ratio r;
     pose_label := pose_label r; timestamp := timestamp r; error := error r |}.

Definition set_face_area (r : FrameResult) (a : Z) : FrameResult :=
  {| embedding := embedding r; confidence := confidence r;
     face_area := Some a; face_ratio := face_ratio r;
     pose_label := pose_label r; timestamp := timestamp r; error := error r |}.

Definition set_face_ratio (r : FrameResult) (q : Q) : FrameResult :=
  {| embedding := embedding r; confidence := confidence r;
     face_area := face_area r; face_ratio := Some q;
     pose_label := pose_label r; timestamp := timestamp r; error := error r |}.

(** [d.get(key, 0)]. *)
Definition get0 (v : option Z) : Z :=
  match v with Some z => z | None => 0%Z end.

Definition empty_facial_area : facial_area_dict :=
  {| fa_x := None; fa_y := None; fa_w := None; fa_h := None |}.

(** [n / d] on two Python ints: raises when [d] is zero.  The float
    quotient is read as the exact ratio, which it is up to rounding when it
    does not overflow. *)
Definition true_div (n d : Z) : exn + Q :=
  if (d =? 0)%Z then inl (Raise ZeroDivisionError "division by zero")
  else inr (inject_Z n / inject_Z d)%Q.

(** [x < y] on two ratios. *)
Definition Qltb (x y : Q) : bool := negb (Qle_bool y x).

Section Methods.
Context `{Externals}.

(** The body of the [try] of [process_frame], from the dict built before it:
    the dict as the body leaves it, and the exception if the body raised one.
    Every [return result] of the body and its falling off the end return the
    dict with no exception. *)
Definition process_frame_try (image_data : list Byte.byte)
    (result : FrameResult) : M (FrameResult * option exn) :=
  match imdecode image_data with
  | inl e => ret (result, Some e)
  | inr None => ret (set_error result (Some "Failed to decode image"), None)
  | inr (Some img) =>
    let height := img_height img in
    let width := img_width img in
    if ((height <? 200) || (width <? 200))%Z then
      ret (set_error result
             (Some ("Image too small: " ++ str_int width ++ "x"
                    ++ str_int height ++ ". Minimum 200x200 required")), None)
    else
      let image_area := (width * height)%Z in
      emit (EvRepresent img) ;;;
      match represent img with
      | inl e =>
          ret (set_error result
                 (Some ("DeepFace processing failed: " ++ str e)), None)
      | inr NotAList =>
          ret (set_error result
                 (Some "Unexpected DeepFace result format"), None)
      | inr (FaceList []) =>
          ret (set_error result (Some "No face detected in image"), None)
      | inr (FaceList ((_ :: _ :: _) as deepface_result)) =>
          ret (set_error result
                 (Some ("Multiple faces detected ("
                        ++ str_int (len deepface_result)
                        ++ "). Exactly 1 face required")), None)
      | inr (FaceList [face_data]) =>
        match fd_embedding face_data with
        | None => ret (result, Some (Raise KeyError "'embedding'"))
        | Some raw =>
          let embedding := map float32 raw in
          let facial_area :=
            match fd_facial_area face_data with
            | Some d => d
            | None => empty_facial_area
            end in
          let x := get0 (fa_x facial_area) in
          let y := get0 (fa_y facial_area) in
          let w := get0 (fa_w facial_area) in
          let h := get0 (fa_h facial_area) in
          let face_area := (w * h)%Z in
          quotient <-
            (if (image_area >? 0)%Z
             then emit (EvTrueDiv face_area image_area) ;;;
                  ret (true_div face_area image_area)
             else emit EvRatioFallback ;;; ret (inr 0%Q)) ;;
          match quotient with
          | inl e => ret (result, Some e)
          | inr face_ratio =>
            if Qltb face_ratio 0.05 then
              ret (set_error result
                     (Some ("Face too small (ratio: " ++ format_4f face_ratio
                            ++ "). Minimum 0.05 required")), None)
            else
              let confidence := face_ratio in
              let result := set_embedding result embedding in
              let result := set_confidence result confidence in
              let result := set_face_area result face_area in
              let result := set_face_ratio result face_ratio in
              let result := set_error result None in
              ret (result, None)
          end
        end
      end
  end.

(** [process_frame(image_data, pose_label)]. *)
Definition process_frame (image_data : list Byte.byte) (pose_label : string)
  : M FrameResult :=
  now <- utcnow_isoformat ;;
  let result :=
    {| embedding := None; confidence := None; face_area := None;
       face_ratio := None; pose_label := pose_label; timestamp := now;
       error := None |} in
  out <- process_frame_try image_data result ;;
  match out with
  | (result, None) => ret result
  | (result, Some e) =>
      ret (set_error result
             (Some ("Unexpected error processing frame: " ++ str e)))
  end.

(** [best_similarity >= threshold]. *)
Definition Rgeb (x y : R) : bool := if Rge_dec x y then true else false.

(** The body of the [try] of [verify_face]: what it returns, or the
    exception it raises. *)
Definition verify_face_try (image_data : list Byte.byte)
    (stored_embeddings : ndarray) (threshold : R)
  : M (exn + bool * R * string) :=
  result <- process_frame image_data "verification" ;;
  match error result with
  | Some err => ret (inr (false, 0, "Face processing failed: " ++ err))
  | None =>
    match embedding result with
    | None => ret (inr (false, 0, "Failed to extract embedding"))
    | Some query_embedding =>
      match _cosine_similarity query_embedding stored_embeddings with
      | inl e => ret (inl e)
      | inr similarities =>
        match Numpy.max similarities with
        | inl e => ret (inl e)
        | inr best_similarity =>
          let is_match := Rgeb best_similarity threshold in
          let message :=
            if is_match
            then "Face verified with similarity: "
                 ++ format_4f_R best_similarity
            else "Face not verified. Best similarity: "
                 ++ format_4f_R best_similarity
                 ++ " (threshold: " ++ format_R threshold ++ ")" in
          ret (inr (is_match, best_similarity, message))
        end
      end
    end
  end.

(** [verify_face(image_data, stored_embeddings, threshold)]. *)
Definition verify_face (image_data : list Byte.byte)
    (stored_embeddings : ndarray) (threshold : R) : M (bool * R * string) :=
  out <- verify_face_try image_data stored_embeddings threshold ;;
  match out with
  | inr answer => ret answer
  | inl e => ret (false, 0, "Verification error: " ++ str e)
  end.

(** The default of the parameter [threshold]. *)
Definition default_threshold : R := 0.6.

End Methods.

End FaceProcessor.

(** ** [storage.py]: class [EnrollmentStorage] *)

Module EnrollmentStorage.

(** Writing [content] to the file at [p], as the disk allows. *)
Definition write_file {A} (p : path) (set : file A -> M unit) (content : A)
  : M (exn + unit) :=
  fun w =>
    match disk w p with
    | Written => (set (Holds content) ;;; ret (inr tt)) w
    | FailsUntouched => (inl (Raise OSError "cannot open file"), w)
    | FailsTruncated =>
        (set Unreadable ;;; ret (inl (Raise OSError "write failed"))) w
    end.

Section Methods.
Context `{Externals}.

(** [save_enrollment(embeddings, metadata)]: returns, or raises. *)
Definition save_enrollment (embeddings : list (list R))
    (metadata : list frame_metadata) : M (exn + unit) :=
  match Numpy.stack embeddings with
  | inl e => ret (inl e)
  | inr embeddings_array =>
    now <- utcnow_isoformat ;;
    saved <- write_file embeddings_path set_embeddings_file
               {| npz_embeddings := embeddings_array;
                  npz_version := "1.0";
                  npz_timestamp := now |} ;;
    match saved with
    | inl e => ret (inl e)
    | inr _ =>
      now <- utcnow_isoformat ;;
      let metadata_to_save :=
        {| md_version := "1.0";
           md_timestamp := now;
           md_count := len embeddings;
           md_frames := metadata |} in
      write_file metadata_path set_metadata_file metadata_to_save
    end
  end.

(** [load_embeddings()]: [None] when the file is absent and when reading it
    raises. *)
Definition load_embeddings : M (option Numpy.ndarray) :=
  fun w =>
    match embeddings_file w with
    | Missing => (None, w)
    | Unreadable => (None, w)
    | Holds data => (Some (Numpy.Arr2 (npz_embeddings data)), w)
    end.

(** [load_metadata()]. *)
Definition load_metadata : M (option metadata_doc) :=
  fun w =>
    match metadata_file w with
    | Missing => (None, w)
    | Unreadable => (None, w)
    | Holds metadata => (Some metadata, w)
    end.

Definition exists_ {A} (f : file A) : bool :=
  match f with Missing => false | _ => true end.

(** [is_enrolled()]. *)
Definition is_enrolled : M bool :=
  fun w => (exists_ (embeddings_file w) && exists_ (metadata_file w), w).

(** [clear_enrollment()]. *)
Definition clear_enrollment : M unit :=
  (fun w => if exists_ (embeddings_file w)
            then set_embeddings_file Missing w else (tt, w)) ;;;
  (fun w => if exists_ (metadata_file w)
            then set_metadata_file Missing w else (tt, w)).

End Methods.

End EnrollmentStorage.

(** ** [main.py]: the [/enroll] and [/verify] handlers *)

Module Main.

Import FaceProcessor EnrollmentStorage.

(** [models.FrameData]. *)
Record FrameData := {
  pose : string;
  image : string
}.

(** The [data] of a [SuccessResponse]. *)
Inductive response_data :=
| EnrollData (embeddings_count : Z) (metadata : list frame_metadata)
    (errors : option (list string))
| VerifyData (verified : bool) (similarity : R) (threshold : R).

(** What a handler does: it returns a [SuccessResponse] or raises an
    [HTTPException]. *)
Inductive response :=
| SuccessResponse (message : string) (data : response_data)
| HTTPException (status_code : Z) (detail : string).

Definition comma : ascii := ","%char.

(** [',' in s]. *)
Fixpoint has_comma (s : string) : bool :=
  match s with
  | EmptyString => false
  | String c rest => Ascii.eqb c comma || has_comma rest
  end.

(** [s.split(',')]. *)
Fixpoint split_comma (s : string) : list string :=
  match s with
  | EmptyString => [EmptyString]
  | String c rest =>
      if Ascii.eqb c comma then EmptyString :: split_comma rest
      else match split_comma rest with
           | first :: others => String c first :: others
           | [] => [String c EmptyString]
           end
  end.

(** The payload of an image string: what follows the first comma, up to the
    second, when there is a comma. *)
Definition payload (image_str : string) : string :=
  if has_comma image_str
  then nth 1 (split_comma image_str) EmptyString
  else image_str.

(** The three lists the loop of [enroll] appends to. *)
Record accumulator := {
  valid_embeddings : list (list R);
  valid_metadata : list frame_metadata;
  errors : list string
}.

Section Handlers.
Context `{Externals}.

(** One pass of the body of the [for] loop of [enroll]. *)
Definition enroll_frame (idx : Z) (frame : FrameData) (acc : accumulator)
  : M accumulator :=
  let image_str := payload (image frame) in
  match b64decode image_str with
  | inl e =>
      ret {| valid_embeddings := valid_embeddings acc;
             valid_metadata := valid_metadata acc;
             errors := List.app (errors acc)
               ["Frame " ++ str_int (idx + 1) ++ " (" ++ pose frame
                ++ "): Processing error - " ++ str e] |}
  | inr image_data =>
    result <- process_frame image_data (pose frame) ;;
    match error result with
    | Some err =>
        ret {| valid_embeddings := valid_embeddings acc;
               valid_metadata := valid_metadata acc;
               errors := List.app (errors acc)
                 ["Frame " ++ str_int (idx + 1) ++ " (" ++ pose frame
                  ++ "): " ++ err] |}
    | None =>
      match embedding result with
      | Some v =>
          ret {| valid_embeddings := List.app (valid_embeddings acc) [v];
                 valid_metadata := List.app (valid_metadata acc)
                   [{| m_pose := pose_label result;
                       m_timestamp := timestamp result;
                       m_confidence := confidence result;
                       m_face_ratio := face_ratio result |}];
                 errors := errors acc |}
      | None => ret acc
      end
    end
  end.

(** [for idx, frame in enumerate(frames)], from index [idx]. *)
Fixpoint enroll_loop (frames : list FrameData) (idx : Z) (acc : accumulator)
  : M accumulator :=
  match frames with
  | [] => ret acc
  | frame :: rest =>
      acc' <- enroll_frame idx frame acc ;;
      enroll_loop rest (idx + 1) acc'
  end.

(** [enroll(request)] on [request.frames]. *)
Definition enroll (frames : list FrameData) : M response :=
  if (len frames <? 5)%Z then
    ret (HTTPException 400
           ("Insufficient frames: " ++ str_int (len frames)
            ++ " provided, minimum 5 required"))
  else
    acc <- enroll_loop frames 0
             {| valid_embeddings := []; valid_metadata := []; errors := [] |} ;;
    if (len (valid_embeddings acc) <? 5)%Z then
      let error_msg :=
        "Insufficient valid embeddings: "
        ++ str_int (len (valid_embeddings acc)) ++ " valid out of "
        ++ str_int (len frames) ++ " frames" in
      let error_msg :=
        match errors acc with
        | [] => error_msg
        | _ :: _ =>
            error_msg ++ ". Errors: "
            ++ String.concat "; " (firstn 5 (errors acc))
        end in
      ret (HTTPException 400 error_msg)
    else
      saved <- save_enrollment (valid_embeddings acc) (valid_metadata acc) ;;
      match saved with
      | inl e =>
          ret (HTTPException 500 ("Failed to save enrollment: " ++ str e))
      | inr _ =>
          ret (SuccessResponse
                 ("Successfully enrolled "
                  ++ str_int (len (valid_embeddings acc))
                  ++ " face embeddings")
                 (EnrollData (len (valid_embeddings acc))
                    (valid_metadata acc)
                    (match errors acc with
                     | [] => None
                     | _ :: _ => Some (errors acc)
                     end)))
      end.

(** [verify(request)] on [request.image]. *)
Definition verify (image_str : string) : M response :=
  enrolled <- is_enrolled ;;
  if negb enrolled then
    ret (HTTPException 400
           "No enrollment found. Please enroll a face first.")
  else
    match b64decode (payload image_str) with
    | inl e => ret (HTTPException 500 ("Verification error: " ++ str e))
    | inr image_data =>
      stored <- load_embeddings ;;
      match stored with
      | None => ret (HTTPException 500 "Failed to load stored embeddings")
      | Some stored_embeddings =>
        out <- verify_face image_data stored_embeddings 0.6%R ;;
        match out with
        | (is_match, similarity, message) =>
            ret (SuccessResponse message
                   (VerifyData is_match similarity 0.6%R))
        end
      end
    end.

End Handlers.

End Main.

(** ** The enrollment aggregator, as the specification words it

    The specification describes [enroll] as two stages: every frame yields an
    outcome (in frame order), and a pure aggregation partitions the outcomes.
    These definitions follow that wording; they are compared with the loop
    of [Main.enroll] further down. *)

Module Aggregator.

Import FaceProcessor Main.

(** The outcome of one frame: the exception of the base64 decoding, or the
    result of the frame validator. *)
Definition outcome : Type := exn + FrameResult.

Section Outcomes.
Context `{Externals}.

Definition frame_outcome (frame : FrameData) : M outcome :=
  match b64decode (payload (image frame)) with
  | inl e => ret (inl e)
  | inr image_data =>
      result <- process_frame image_data (pose frame) ;;
      ret (inr result)
  end.

Fixpoint frame_outcomes (frames : list FrameData) : M (list outcome) :=
  match frames with
  | [] => ret []
  | frame :: rest =>
      o <- frame_outcome frame ;;
      os <- frame_outcomes rest ;;
      ret (o :: os)
  end.

End Outcomes.

(** An outcome carries an embedding. *)
Definition carries_embedding (o : outcome) : bool :=
  match o with
  | inr result =>
      match embedding result with Some _ => true | None => false end
  | inl _ => false
  end.

Definition metadata_of (result : FrameResult) : frame_metadata :=
  {| m_pose := pose_label result;
     m_timestamp := timestamp result;
     m_confidence := confidence result;
     m_face_ratio := face_ratio result |}.

(** The accepted outcomes in input order: each embedding with its
    metadata. *)
Fixpoint accepted (os : list outcome) : list (list R * frame_metadata) :=
  match os with
  | [] => []
  | inr result :: rest =>
      match embedding result with
      | Some v => (v, metadata_of result) :: accepted rest
      | None => accepted rest
      end
  | inl _ :: rest => accepted rest
  end.

(** The per-frame error messages in input order; [idx] is the index of the
    first frame. *)
Fixpoint error_messages (idx : Z) (frames : list FrameData)
    (os : list outcome) : list string :=
  match frames, os with
  | frame :: frames', o :: os' =>
      let rest := error_messages (idx + 1) frames' os' in
      match o with
      | inl e =>
          ("Frame " ++ str_int (idx + 1) ++ " (" ++ pose frame
           ++ "): Processing error - " ++ str e) :: rest
      | inr result =>
          match error result with
          | Some err =>
              ("Frame " ++ str_int (idx + 1) ++ " (" ++ pose frame
               ++ "): " ++ err) :: rest
          | None => rest
          end
      end
  | _, _ => []
  end.

(** The diagnostic of an insufficient enrollment: the count of valid outcomes
    out of the total, then at most the first five error messages. *)
Definition insufficient_detail (valid total : Z) (errs : list string)
  : string :=
  let counts :=
    "Insufficient valid embeddings: " ++ str_int valid ++ " valid out of "
    ++ str_int total ++ " frames" in
  match errs with
  | [] => counts
  | _ :: _ => counts ++ ". Errors: " ++ String.concat "; " (firstn 5 errs)
  end.

(** The accepted pair [p] is the embedding and the metadata of outcome [o]. *)
Definition taken_from (o : outcome) (p : list R * frame_metadata) : Prop :=
  exists result,
    o = inr result /\ embedding result = Some (fst p)
    /\ snd p = metadata_of result.

(** The accumulator of the loop after the outcomes [os] of [frames], the
    first of which has index [idx]. *)
Definition grow (acc : accumulator) (idx : Z) (frames : list FrameData)
    (os : list outcome) : accumulator :=
  {| valid_embeddings := List.app (valid_embeddings acc) (map fst (accepted os));
     valid_metadata := List.app (valid_metadata acc) (map snd (accepted os));
     errors := List.app (errors acc) (error_messages idx frames os) |}.

(** The response of [enroll] once enough frames were accepted, from what
    [save_enrollment] did. *)
Definition enrolled_response (saved : exn + unit)
    (embeddings : list (list R)) (metadata : list frame_metadata)
    (errs : list string) : response :=
  match saved with
  | inl e => HTTPException 500 ("Failed to save enrollment: " ++ str e)
  | inr _ =>
      SuccessResponse
        ("Successfully enrolled " ++ str_int (len embeddings)
         ++ " face embeddings")
        (EnrollData (len embeddings) metadata
           (match errs with [] => None | _ :: _ => Some errs end))
  end.

(** The detail of the rejection of a request of fewer than five frames. *)
Definition insufficient_frames_detail (total : Z) : string :=
  "Insufficient frames: " ++ str_int total ++ " provided, minimum 5 required".

End Aggregator.

(** ** Vocabulary of the properties of the validator and of the
       similarity engine *)

Module Properties.

Import FaceProcessor.

(** How the body of the [try] of [process_frame] leaves the dict it
    started from: untouched with an exception, with an error message, or
    with all the fields of an accepted face. *)
Inductive try_shape (result : FrameResult)
  : FrameResult * option exn -> Prop :=
| shape_raised e : try_shape result (result, Some e)
| shape_rejected msg : try_shape result (set_error result (Some msg), None)
| shape_accepted v c a q :
    try_shape result
      (set_error (set_face_ratio (set_face_area (set_confidence
         (set_embedding result v) c) a) q) None, None).

(** Exactly one of embedding and error is present. *)
Definition exactly_one (result : FrameResult) : Prop :=
  (embedding result = None /\ error result <> None)
  \/ (embedding result <> None /\ error result = None).

(** The collaborators [X] with another embedding extractor. *)
Definition with_extractor (X : Externals)
    (rep : decoded_image -> exn + deepface_result) : Externals :=
  {| imdecode := @imdecode X; represent := rep; float32 := @float32 X;
     arithmetic := @arithmetic X;
     isoformat := @isoformat X; format_4f := @format_4f X;
     format_4f_R := @format_4f_R X; format_R := @format_R X;
     b64decode := @b64decode X |}.

(** The message of the minimum-resolution rejection. *)
Definition too_small_message (img : decoded_image) : string :=
  "Image too small: " ++ str_int (img_width img) ++ "x"
  ++ str_int (img_height img) ++ ". Minimum 200x200 required".

(** A logged operation is harmless for the face ratio: a division has a
    divisor of at least 200 * 200 and returns, the other arm of the
    conditional never runs. *)
Definition division_safe (ev : event) : Prop :=
  match ev with
  | EvRepresent _ => True
  | EvTrueDiv n d =>
      (40000 <= d)%Z /\ true_div n d = inr (inject_Z n / inject_Z d)%Q
  | EvRatioFallback => False
  end.

(** The files and the disk of [w'] are those of [w]. *)
Definition same_store (w w' : world) : Prop :=
  embeddings_file w' = embeddings_file w
  /\ metadata_file w' = metadata_file w
  /\ disk w' = disk w.


End Properties.

(** ** The store, as the specification words it *)

Module StoreSpec.

(** The two artifacts of a world. *)
Definition artifacts (w : world) : file npz * file metadata_doc :=
  (embeddings_file w, metadata_file w).

(** The embeddings artifact holds [embeddings] and the metadata artifact
    holds [metadata], counted. *)
Definition holds_enrollment (w : world) (embeddings : list (list R))
    (metadata : list frame_metadata) : Prop :=
  (exists d, embeddings_file w = Holds d /\ npz_embeddings d = embeddings)
  /\ (exists m, metadata_file w = Holds m /\ md_frames m = metadata
                /\ md_count m = len embeddings).

(** A save is all-or-nothing from [w] to [w']: either both artifacts are
    those of the new enrollment, or both are what they were. *)
Definition all_or_nothing (w w' : world) (embeddings : list (list R))
    (metadata : list frame_metadata) : Prop :=
  holds_enrollment w' embeddings metadata \/ artifacts w' = artifacts w.

(** The count the metadata artifact records is the number of rows of the
    embeddings artifact. *)
Definition counts_agree (w : world) : Prop :=
  forall d m, embeddings_file w = Holds d -> metadata_file w = Holds m ->
    md_count m = len (npz_embeddings d).

(** The embeddings artifact a save writes at the time [now]. *)
Definition new_npz (rows : list (list R)) (now : string) : npz :=
  {| npz_embeddings := rows; npz_version := "1.0"; npz_timestamp := now |}.

(** The metadata artifact a save writes at the time [now]. *)
Definition new_doc (embeddings : list (list R))
    (metadata : list frame_metadata) (now : string) : metadata_doc :=
  {| md_version := "1.0"; md_timestamp := now;
     md_count := len embeddings; md_frames := metadata |}.

(** The call raised. *)
Definition raised {A} (r : exn + A) : Prop := exists e, r = inl e.

End StoreSpec.

(** ** Arithmetic without rounding

    The Euclidean norm, the sum and the quotient of real numbers and the sum
    of products satisfy the laws of [FloatArithmetic].  The examples compute
    with them. *)

Module ExactArithmetic.

Import Numpy.
Local Open Scope R_scope.

Definition sum (v : list R) : R := fold_right Rplus 0 v.

(** The Euclidean norm. *)
Definition norm (v : list R) : R := sqrt (sum (map (fun x => x * x) v)).

(** The sum of products of two vectors of one length. *)
Fixpoint inner (u v : list R) : R :=
  match u, v with
  | x :: u', y :: v' => x * y + inner u' v'
  | _, _ => 0
  end.

Lemma norm_nonneg (v : list R) : 0 <= norm v.
Proof. apply sqrt_pos. Qed.

Lemma sum_pos (x y : R) : 0 <= x -> 0 < y -> 0 < x + y.
Proof. intros Hx Hy. lra. Qed.

Lemma quotient_zero (d : R) : 0 < d -> 0 / d = 0.
Proof. intros Hd. field. lra. Qed.

Lemma inner_zeros (n : nat) : inner (repeat 0 n) (repeat 0 n) = 0.
Proof. induction n as [|n IH]; simpl; [reflexivity | rewrite IH; ring]. Qed.

Lemma inner_comm (u v : list R) : inner u v = inner v u.
Proof.
  revert v. induction u as [|x u IH]; intros [|y v]; simpl; try reflexivity.
  rewrite IH. ring.
Qed.

Definition exact_arithmetic : FloatArithmetic :=
  {| linalg_norm := norm;
     float_add := Rplus;
     float_div := Rdiv;
     float_dot := inner;
     linalg_norm_nonneg := norm_nonneg;
     float_add_pos := sum_pos;
     float_div_zero := quotient_zero;
     float_dot_zeros := inner_zeros;
     float_dot_comm := inner_comm |}.

End ExactArithmetic.

(** ** Concrete collaborators and inputs, for the examples *)

Module Examples.

Import FaceProcessor Main ExactArithmetic.

Definition small_image : decoded_image :=
  {| img_height := 480; img_width := 199; img_pixels := [] |}.

Definition good_image : decoded_image :=
  {| img_height := 200; img_width := 200; img_pixels := [] |}.

Definition one_face : face_dict :=
  {| fd_embedding := Some [1%R; 0%R];
     fd_facial_area :=
       Some {| fa_x := Some 10%Z; fa_y := Some 20%Z;
               fa_w := Some 100%Z; fa_h := Some 100%Z |} |}.

(** A decoder that tells three inputs apart by their length, an extractor
    that finds the same face in every image, arithmetic without rounding. *)
Definition collaborators : Externals :=
  {| imdecode := fun data =>
       match data with
       | [] => inr None
       | [_] => inr (Some small_image)
       | _ => inr (Some good_image)
       end;
     represent := fun _ => inr (FaceList [one_face]);
     float32 := fun x => x;
     arithmetic := exact_arithmetic;
     isoformat := fun n => "T" ++ str_int (Z.of_nat n);
     format_4f := fun _ => "0.2500";
     format_4f_R := fun _ => "1.0000";
     format_R := fun _ => "0.6";
     b64decode := fun s => inr (list_byte_of_string s) |}.

Definition empty_store : world :=
  {| clock := 0; log := []; embeddings_file := Missing;
     metadata_file := Missing; disk := fun _ => Written |}.

Definition undecodable : list Byte.byte := [].
Definition small_jpeg : list Byte.byte := [Byte.x00].
Definition good_jpeg : list Byte.byte := [Byte.x00; Byte.x01].

Definition one_frame : list FrameData := [{| pose := "front"; image := "ab" |}].

Definition five_frames : list FrameData :=
  [{| pose := "front"; image := "ab" |};
   {| pose := "left"; image := "data:image/jpeg;base64,ab" |};
   {| pose := "right"; image := "ab" |};
   {| pose := "up"; image := "ab" |};
   {| pose := "down"; image := "ab" |}].

Definition five_bad_frames : list FrameData :=
  [{| pose := "front"; image := "ab" |};
   {| pose := "left"; image := "a" |};
   {| pose := "right"; image := EmptyString |};
   {| pose := "up"; image := "ab" |};
   {| pose := "down"; image := "ab" |}].

Definition meta (p : string) : frame_metadata :=
  {| m_pose := p; m_timestamp := "T0";
     m_confidence := Some (1 # 4); m_face_ratio := Some (1 # 4) |}.

Definition five_rows : list (list R) :=
  [[1; 0]; [0; 1]; [1; 1]; [1; 2]; [2; 1]]%R.

Definition six_rows : list (list R) :=
  [[3; 0]; [0; 3]; [3; 3]; [3; 2]; [2; 3]; [5; 5]]%R.

Definition five_meta : list frame_metadata :=
  [meta "front"; meta "left"; meta "right"; meta "up"; meta "down"].

Definition six_meta : list frame_metadata :=
  [meta "a"; meta "b"; meta "c"; meta "d"; meta "e"; meta "f"].

(** A store holding an enrollment of five frames, on a disk where the
    metadata file cannot be opened for writing. *)
Definition enrolled_readonly_metadata : world :=
  {| clock := 7; log := [];
     embeddings_file :=
       Holds {| npz_embeddings := five_rows; npz_version := "1.0";
                npz_timestamp := "T0" |};
     metadata_file :=
       Holds {| md_version := "1.0"; md_timestamp := "T1"; md_count := 5;
                md_frames := five_meta |};
     disk := fun p =>
       match p with
       | embeddings_path => Written
       | metadata_path => FailsUntouched
       end |}.

End Examples.

(** ** [main.py]: the [/status] and [/enrollment] handlers *)

Module Admin.

Import Numpy EnrollmentStorage.

(** What these two handlers do: a [SuccessResponse] whose [data] may be
    absent, or a raised [HTTPException]. *)
Inductive reply (D : Type) :=
| SuccessResponse (message : string) (data : option D)
| HTTPException (status_code : Z) (detail : string).
Arguments SuccessResponse {D} message data.
Arguments HTTPException {D} status_code detail.

(** The dict under the key ["metadata"] of the status. *)
Record status_metadata := {
  sm_version : string;
  sm_timestamp : string;
  sm_count : Z
}.

(** The dict [data] of [get_status]; an absent key is [None]. *)
Record status_data := {
  enrolled : bool;
  embeddings_count : option Z;
  metadata : option status_metadata
}.

(** [len(a)]: the size of the first axis. *)
Definition array_len (a : ndarray) : Z :=
  match a with
  | Arr1 v => len v
  | Arr2 rows => len rows
  end.

(** [get_status()]. *)
Definition get_status : M (reply status_data) :=
  is_enrolled_now <- is_enrolled ;;
  if is_enrolled_now then
    embeddings <- load_embeddings ;;
    metadata <- load_metadata ;;
    ret (SuccessResponse "Status retrieved successfully"
           (Some {| enrolled := is_enrolled_now;
                    embeddings_count :=
                      match embeddings with
                      | Some a => Some (array_len a)
                      | None => None
                      end;
                    metadata :=
                      match metadata with
                      | Some m =>
                          Some {| sm_version := md_version m;
                                  sm_timestamp := md_timestamp m;
                                  sm_count := md_count m |}
                      | None => None
                      end |}))
  else
    ret (SuccessResponse "Status retrieved successfully"
           (Some {| enrolled := is_enrolled_now;
                    embeddings_count := None;
                    metadata := None |})).

(** [delete_enrollment()]. *)
Definition delete_enrollment : M (reply unit) :=
  is_enrolled_now <- is_enrolled ;;
  if negb is_enrolled_now then
    ret (HTTPException 404 "No enrollment found to delete")
  else
    clear_enrollment ;;;
    ret (SuccessResponse "Enrollment data cleared successfully" None).

End Admin.

(** ** [test_scripts/analyze_embeddings.py] *)

Module AnalyzeEmbeddings.

Import Numpy.

(** [np.dot(a, b.T)] on two 2-D arrays of one row length: entry (i, j) is
    the sum of products of row i of [a] and row j of [b]. *)
Section Pairwise.
Context `{FloatArithmetic}.

Definition dot_transposed (a b : list (list R)) : list (list R) :=
  map (fun r => map (fun c => float_dot r c) b) a.

(** [compute_cosine_similarity(a)]. *)
Definition compute_cosine_similarity (a : list (list R)) : list (list R) :=
  let a_norm :=
    map (fun row => div_scalar row (float_add (linalg_norm row) 1e-8%R)) a in
  let similarities := dot_transposed a_norm a_norm in
  similarities.

End Pairwise.

(** [load_enrollment_data()], reading the two files of the store
    directory. *)
Definition load_enrollment_data : M (option ndarray * option metadata_doc) :=
  fun w =>
    match embeddings_file w with
    | Missing => ((None, None), w)
    | Unreadable => ((None, None), w)
    | Holds data =>
        let embeddings := Some (Arr2 (npz_embeddings data)) in
        match metadata_file w with
        | Missing => ((embeddings, None), w)
        | Unreadable => ((embeddings, None), w)
        | Holds metadata => ((embeddings, Some metadata), w)
        end
    end.

End AnalyzeEmbeddings.

(** ** Vocabulary of the further properties *)

Module Conditions.

Import Numpy FaceProcessor EnrollmentStorage Main.

(** [w * h] of the facial area of a detected face, absent keys read as 0. *)
Definition box_area (face : face_dict) : Z :=
  let facial_area :=
    match fd_facial_area face with
    | Some d => d
    | None => empty_facial_area
    end in
  (get0 (fa_w facial_area) * get0 (fa_h facial_area))%Z.

(** The conditions under which a frame is accepted: it decodes to an image
    of at least 200 x 200, the extractor returns exactly one face, that face
    has an embedding, and 20 times its box area is at least the image
    area. *)
Definition acceptable `{Externals} (image_data : list Byte.byte)
    (img : decoded_image) (face : face_dict) (raw : list R) : Prop :=
  imdecode image_data = inr (Some img)
  /\ (200 <= img_height img)%Z /\ (200 <= img_width img)%Z
  /\ represent img = inr (FaceList [face])
  /\ fd_embedding face = Some raw
  /\ (img_width img * img_height img <= 20 * box_area face)%Z.

(** A Python int that a float holds exactly. *)
Definition float_exact (n : Z) : Prop := (Z.abs n <= 2 ^ 53)%Z.

(** The two ints that [process_frame] divides for these bytes, the area of
    the box of the one face found and the area of the image, are held exactly
    by floats.  Their quotient [face_area / image_area] then does not
    overflow, and comparing its rounding with the float [0.05] is comparing
    the exact quotient with 1/20. *)
Definition areas_exact `{Externals} (image_data : list Byte.byte) : Prop :=
  forall img face,
    imdecode image_data = inr (Some img) ->
    represent img = inr (FaceList [face]) ->
    float_exact (img_width img * img_height img)
    /\ float_exact (box_area face).

(** The result of an accepted frame. *)
Definition accepted_result `{Externals} (img : decoded_image)
    (face : face_dict) (raw : list R) (pose : string) (now : string)
  : FrameResult :=
  let ratio :=
    (inject_Z (box_area face)
     / inject_Z (img_width img * img_height img))%Q in
  {| embedding := Some (map float32 raw);
     confidence := Some ratio;
     face_area := Some (box_area face);
     face_ratio := Some ratio;
     pose_label := pose;
     timestamp := now;
     error := None |}.

(** The event is a call of the embedding extractor. *)
Definition is_represent (ev : event) : bool :=
  match ev with
  | EvRepresent _ => true
  | _ => false
  end.

(** The list under the key ["errors"] of the response of [enroll]. *)
Definition reported_errors (errs : option (list string)) : list string :=
  match errs with
  | Some l => l
  | None => []
  end.

(** The accumulator of the loop of [enroll] before the first frame. *)
Definition empty_accumulator : accumulator :=
  {| valid_embeddings := []; valid_metadata := []; errors := [] |}.

(** Entry (i, j) of a matrix given by its rows. *)
Definition entry (m : list (list R)) (i j : nat) : R :=
  nth j (nth i m []) 0%R.

(** Exactly one of the two files of the store exists. *)
Definition orphaned (w : world) : Prop :=
  exists_ (embeddings_file w) <> exists_ (metadata_file w).

End Conditions.

(** ** Further concrete inputs *)

Module MoreExamples.

Import Numpy FaceProcessor EnrollmentStorage Main Properties Examples.

Definition face_without_box : face_dict :=
  {| fd_embedding := Some [1%R; 0%R]; fd_facial_area := None |}.

Definition face_without_embedding : face_dict :=
  {| fd_embedding := None; fd_facial_area := fd_facial_area one_face |}.

(** The collaborators of [Examples] with an extractor that returns
    [face]. *)
Definition collaborators_finding (face : face_dict) : Externals :=
  with_extractor collaborators (fun _ => inr (FaceList [face])).

(** A store whose embeddings file is corrupt. *)
Definition corrupt_store : world :=
  {| clock := 3; log := []; embeddings_file := Unreadable;
     metadata_file := metadata_file enrolled_readonly_metadata;
     disk := fun _ => Written |}.

(** A store left with its embeddings file only. *)
Definition orphan_store : world :=
  {| clock := 3; log := [];
     embeddings_file := embeddings_file enrolled_readonly_metadata;
     metadata_file := Missing;
     disk := fun _ => Written |}.

End MoreExamples.

(** ** Proof automation *)

Ltac break_match :=
  match goal with
  | |- context [match ?x with _ => _ end] =>
      lazymatch x with
      | context [match _ with _ => _ end] => fail
      | _ => destruct x eqn:?
      end
  end.

(** * Theorems *)

Import Numpy FaceProcessor EnrollmentStorage Main Aggregator Properties
  StoreSpec ExactArithmetic Examples.

Section ValidatorShape.
Context `{Externals}.

Lemma process_frame_try_shape image_data result w :
  try_shape result (fst (process_frame_try image_data result w)).
Proof.
  unfold process_frame_try, bind, ret, emit.
  repeat (break_match; simpl); try (constructor; fail).
  all: try discriminate.
Qed.
End ValidatorShape.

Section ValidatorTheorems.
Context `{Externals}.

Lemma process_frame_cases image_data pose w :
  let result := fst (process_frame image_data pose w) in
  (embedding result = None /\ exists msg, error result = Some msg)
  \/ (error result = None /\ exists v, embedding result = Some v).
Proof.
  unfold process_frame, bind, ret, utcnow_isoformat.
  match goal with
  | |- context [process_frame_try ?d ?r ?w'] =>
      pose proof (process_frame_try_shape d r w') as Hshape;
      destruct (process_frame_try d r w') as [[r' raised] w'']
  end.
  simpl in Hshape.
  inversion Hshape as [e | msg | v c a q]; subst; simpl.
  - left. split; [reflexivity | eexists; reflexivity].
  - left. split; [reflexivity | eexists; reflexivity].
  - right. split; [reflexivity | eexists; reflexivity].
Qed.

(** C9: every result of the frame validator holds exactly one of an
    embedding and an error: on every error path (a rejection, or an exception
    caught by the handler) the embedding is [None] and the error is set, on
    the success path the embedding is set and the error is [None]. *)
Theorem frame_outcome_exactly_one (image_data : list Byte.byte)
    (pose : string) (w : world) :
  exactly_one (fst (process_frame image_data pose w)).
Proof.
  destruct (process_frame_cases image_data pose w)
    as [[Hemb [msg Herr]] | [Herr [v Hemb]]].
  - left. split; [exact Hemb | rewrite Herr; discriminate].
  - right. split; [rewrite Hemb; discriminate | exact Herr].
Qed.

Lemma process_frame_same_store image_data pose w :
  same_store w (snd (process_frame image_data pose w)).
Proof.
  unfold process_frame, process_frame_try, bind, ret, emit, utcnow_isoformat,
    same_store.
  repeat (break_match; simpl in * ); 
  repeat match goal with
         | E : (_, _) = (_, _) |- _ => inversion E; subst; clear E
         end; simpl; auto.
Qed.

Lemma area_lower_bound (height width : Z) :
  ((height <? 200) || (width <? 200) = false -> 40000 <= width * height)%Z.
Proof.
  intros Hc. apply orb_false_elim in Hc. destruct Hc as [Hh Hw].
  apply Z.ltb_ge in Hh, Hw. nia.
Qed.

Lemma true_div_defined (n d : Z) :
  d <> 0%Z -> true_div n d = inr (inject_Z n / inject_Z d)%Q.
Proof.
  intros Hd. unfold true_div.
  destruct (Z.eqb_spec d 0); [contradiction | reflexivity].
Qed.

(** C10: whatever the input, the frame validator divides the face area only
    by an image area of at least 200 * 200 = 40000, so the division always
    returns (no [ZeroDivisionError]) and the arm of the conditional that
    yields 0 for a non-positive image area never runs. *)
Theorem division_always_defined (image_data : list Byte.byte)
    (pose : string) (w : world) :
  exists evs,
    log (snd (process_frame image_data pose w)) = (log w ++ evs)%list
    /\ Forall division_safe evs.
Proof.
  unfold process_frame, process_frame_try, bind, ret, emit, utcnow_isoformat.
  simpl.
  destruct (imdecode image_data) as [e | [img |]]; simpl;
    try (exists []; rewrite app_nil_r; split; [reflexivity | constructor]).
  destruct ((img_height img <? 200)%Z || (img_width img <? 200)%Z) eqn:Hsize;
    simpl;
    try (exists []; rewrite app_nil_r; split; [reflexivity | constructor]).
  pose proof (area_lower_bound _ _ Hsize) as Harea.
  assert (Hpos : (img_width img * img_height img >? 0)%Z = true)
    by (apply Z.gtb_lt; lia).
  destruct (represent img) as [e | [| [| f [| g rest]]]]; simpl;
    try (exists [EvRepresent img]; split;
         [reflexivity | repeat constructor]).
  destruct (fd_embedding f) as [raw |]; simpl;
    try (exists [EvRepresent img]; split;
         [reflexivity | repeat constructor]).
  rewrite Hpos. simpl.
  rewrite true_div_defined by lia.
  eexists [EvRepresent img; EvTrueDiv _ _].
  split.
  - destruct (Qltb _ _); simpl; rewrite <- app_assoc; reflexivity.
  - repeat constructor; try assumption. apply true_div_defined; lia.
Qed.

End ValidatorTheorems.

(** C8: an input that decodes to an image whose height or width is below
    200 is rejected with the minimum-resolution message; the embedding
    extractor is not called (nothing is logged) and the outcome is the same
    with any other extractor. *)
Theorem small_image_rejected_before_extractor (X : Externals)
    (image_data : list Byte.byte) (pose : string) (img : decoded_image)
    (w : world) :
  imdecode image_data = inr (Some img) ->
  (img_height img < 200 \/ img_width img < 200)%Z ->
  let out := process_frame image_data pose w in
  error (fst out) = Some (too_small_message img)
  /\ embedding (fst out) = None
  /\ log (snd out) = log w
  /\ forall rep,
       process_frame (H := with_extractor X rep) image_data pose w = out.
Proof.
  intros Hdec Hsmall.
  assert (Hsize : ((img_height img <? 200) || (img_width img <? 200))%Z = true).
  { apply orb_true_iff. destruct Hsmall as [Hh | Hw]; [left | right];
      apply Z.ltb_lt; assumption. }
  assert (Hout : forall Y : Externals,
             @imdecode Y = @imdecode X -> @isoformat Y = @isoformat X ->
             process_frame (H := Y) image_data pose w
             = ({| embedding := None; confidence := None; face_area := None;
                   face_ratio := None; pose_label := pose;
                   timestamp := isoformat (clock w);
                   error := Some (too_small_message img) |},
                {| clock := S (clock w); log := log w;
                   embeddings_file := embeddings_file w;
                   metadata_file := metadata_file w; disk := disk w |})).
  { intros Y Hd Hi.
    unfold process_frame, process_frame_try, bind, ret, utcnow_isoformat.
    rewrite Hd, Hi, Hdec. simpl. rewrite Hsize. reflexivity. }
  simpl. rewrite (Hout X eq_refl eq_refl). simpl.
  repeat split; try reflexivity.
  intros rep. exact (Hout (with_extractor X rep) eq_refl eq_refl).
Qed.

Lemma small_image_witness :
  let out := process_frame (H := collaborators) small_jpeg "front" empty_store in
  error (fst out) = Some (too_small_message small_image)
  /\ embedding (fst out) = None
  /\ log (snd out) = log empty_store
  /\ forall rep,
       process_frame (H := with_extractor collaborators rep)
         small_jpeg "front" empty_store = out.
Proof.
  apply (small_image_rejected_before_extractor collaborators small_jpeg
           "front" small_image empty_store).
  - reflexivity.
  - right. reflexivity.
Defined.

Section VerifyErrors.
Context `{Externals}.

Lemma verify_face_catches image_data stored threshold w :
  match verify_face_try image_data stored threshold w with
  | (inl e, w1) =>
      verify_face image_data stored threshold w
      = ((false, 0%R, "Verification error: " ++ str e), w1)
  | (inr answer, w1) =>
      verify_face image_data stored threshold w = (answer, w1)
  end.
Proof.
  unfold verify_face, bind, ret.
  destruct (verify_face_try image_data stored threshold w) as [[e | a] w1];
    reflexivity.
Qed.

(** C2: when the frame validator reports an error, [verify_face] returns
    [is_match = False] and [best_similarity = 0.0] with the message
    "Face processing failed: " followed by the validator's error; and on
    every input [verify_face] returns a triple: an exception raised by the
    body of its [try] becomes [(False, 0.0, "Verification error: ...")]. *)
Theorem verify_face_never_raises (image_data : list Byte.byte)
    (stored : ndarray) (threshold : R) (w w1 : world) (result : FrameResult)
    (err : string) :
  process_frame image_data "verification" w = (result, w1) ->
  error result = Some err ->
  verify_face image_data stored threshold w
  = ((false, 0%R, "Face processing failed: " ++ err), w1)
  /\ forall image_data' stored' threshold' w',
       match verify_face_try image_data' stored' threshold' w' with
       | (inl e, w2) =>
           verify_face image_data' stored' threshold' w'
           = ((false, 0%R, "Verification error: " ++ str e), w2)
       | (inr answer, w2) =>
           verify_face image_data' stored' threshold' w' = (answer, w2)
       end.
Proof.
  intros Hp He. split.
  - unfold verify_face, verify_face_try, bind, ret.
    rewrite Hp, He. reflexivity.
  - intros. apply verify_face_catches.
Qed.

End VerifyErrors.

Lemma verify_face_never_raises_witness :
  verify_face (H := collaborators) undecodable (Arr2 five_rows)
    default_threshold empty_store
  = ((false, 0%R, "Face processing failed: " ++ "Failed to decode image"),
     snd (process_frame (H := collaborators) undecodable "verification"
            empty_store))
  /\ forall image_data' stored' threshold' w',
       match verify_face_try (H := collaborators) image_data' stored'
               threshold' w' with
       | (inl e, w2) =>
           verify_face (H := collaborators) image_data' stored' threshold' w'
           = ((false, 0%R, "Verification error: " ++ str e), w2)
       | (inr answer, w2) =>
           verify_face (H := collaborators) image_data' stored' threshold' w'
           = (answer, w2)
       end.
Proof.
  apply (verify_face_never_raises (H := collaborators) undecodable
           (Arr2 five_rows) default_threshold empty_store _
           (fst (process_frame (H := collaborators) undecodable "verification"
                   empty_store))).
  - reflexivity.
  - reflexivity.
Defined.


Local Open Scope R_scope.

Lemma epsilon_pos : 0 < epsilon.
Proof. unfold epsilon. lra. Qed.

Section SimilarityFacts.
Context `{FloatArithmetic}.


Lemma length_div_scalar (v : list R) (d : R) :
  length (div_scalar v d) = length v.
Proof. apply length_map. Qed.


Lemma cosine_sym (a b : list R) : cosine a b = cosine b a.
Proof. apply float_dot_comm. Qed.




End SimilarityFacts.


Lemma fold_left_Rmax_ge (l : list R) (a : R) : a <= fold_left Rmax l a.
Proof.
  revert a. induction l as [|x l IH]; intros a; simpl.
  - lra.
  - apply Rle_trans with (Rmax a x); [apply Rmax_l | apply IH].
Qed.

Lemma fold_left_Rmax_upper (l : list R) (a x : R) :
  In x l -> x <= fold_left Rmax l a.
Proof.
  revert a. induction l as [|y l IH]; intros a Hin; simpl in *.
  - contradiction.
  - destruct Hin as [-> | Hin].
    + apply Rle_trans with (Rmax a x); [apply Rmax_r | apply fold_left_Rmax_ge].
    + apply IH, Hin.
Qed.

Lemma fold_left_Rmax_in (l : list R) (a : R) : In (fold_left Rmax l a) (a :: l).
Proof.
  revert a. induction l as [|x l IH]; intros a; simpl.
  - left; reflexivity.
  - destruct (IH (Rmax a x)) as [Heq | Hin].
    + rewrite <- Heq. unfold Rmax. destruct (Rle_dec a x); auto.
    + right; right; exact Hin.
Qed.

Lemma max_vector_spec (s : R) (rest : list R) :
  exists best,
    Numpy.max (Vector (s :: rest)) = inr best
    /\ In best (s :: rest)
    /\ Forall (fun x => x <= best) (s :: rest).
Proof.
  exists (fold_left Rmax rest s). split; [reflexivity | split].
  - apply fold_left_Rmax_in.
  - constructor.
    + apply fold_left_Rmax_ge.
    + apply Forall_forall. intros x Hx. now apply fold_left_Rmax_upper.
Qed.

Lemma Rgeb_true_iff (x y : R) : Rgeb x y = true <-> x >= y.
Proof.
  unfold Rgeb. destruct (Rge_dec x y); split; intros; auto; discriminate.
Qed.

Lemma forallb_map_true {A B} (f : A -> B) (p : B -> bool) (l : list A) :
  (forall x, In x l -> p (f x) = true) -> forallb p (map f l) = true.
Proof.
  induction l as [|x l IH]; intros Hp; simpl.
  - reflexivity.
  - rewrite (Hp x (or_introl eq_refl)), IH; [reflexivity |].
    intros y Hy. apply Hp. now right.
Qed.

Section MatrixForm.
Context `{FloatArithmetic}.

Lemma dot21_rows (rows : list (list R)) (query : list R) :
  Forall (fun row => length row = length query) rows ->
  _cosine_similarity query (Arr2 rows)
  = inr (Vector (map (fun row => cosine row query) rows)).
Proof.
  intros Hshape. unfold _cosine_similarity, dot21.
  rewrite forallb_map_true.
  - rewrite map_map. reflexivity.
  - intros row Hrow. rewrite Forall_forall in Hshape.
    rewrite !length_div_scalar, (Hshape row Hrow). apply Nat.eqb_refl.
Qed.

End MatrixForm.

Section VerifyMatch.
Context `{Externals}.

(** C1: when the frame validation succeeds with embedding [query] and the
    stored matrix has at least one row, every row of the dimension of
    [query], [verify_face] computes the cosine similarity of [query] with
    every row (the dot product of the row and of [query], each divided by
    its norm plus 1e-8, in floating point), returns as [best_similarity]
    their maximum (one of them, and no smaller than any), and [is_match] is
    true exactly when [best_similarity >= threshold]; the number is returned
    whether or not it is a match. *)
Theorem verify_face_best_match (image_data : list Byte.byte)
    (rows : list (list R)) (threshold : R) (w w1 : world)
    (result : FrameResult) (query : list R) :
  process_frame image_data "verification" w = (result, w1) ->
  error result = None ->
  embedding result = Some query ->
  rows <> [] ->
  Forall (fun row => length row = length query) rows ->
  let normalized :=
    fun v => div_scalar v (float_add (linalg_norm v) epsilon) in
  let similarities :=
    map (fun row => float_dot (normalized row) (normalized query)) rows in
  exists best message,
    verify_face image_data (Arr2 rows) threshold w
    = ((Rgeb best threshold, best, message), w1)
    /\ _cosine_similarity query (Arr2 rows) = inr (Vector similarities)
    /\ In best similarities
    /\ Forall (fun s => s <= best) similarities
    /\ (Rgeb best threshold = true <-> best >= threshold).
Proof.
  intros Hp He Hq Hne Hshape normalized similarities.
  assert (Hsims : _cosine_similarity query (Arr2 rows)
                  = inr (Vector similarities))
    by apply (dot21_rows rows query Hshape).
  destruct rows as [|row rows']; [contradiction |].
  destruct (max_vector_spec
              (float_dot (normalized row) (normalized query))
              (map (fun row => float_dot (normalized row) (normalized query))
                   rows'))
    as (best & Hmax & Hin & Hall).
  exists best.
  unfold verify_face, verify_face_try, bind, ret.
  rewrite Hp, He, Hq, Hsims.
  change similarities with
    (float_dot (normalized row) (normalized query)
     :: map (fun row => float_dot (normalized row) (normalized query)) rows').
  rewrite Hmax.
  eexists. split; [reflexivity |].
  split; [reflexivity |].
  split; [exact Hin |].
  split; [exact Hall | apply Rgeb_true_iff].
Qed.
End VerifyMatch.

Lemma verify_face_best_match_witness :
  let normalized :=
    fun v => div_scalar (H := exact_arithmetic) v (norm v + epsilon) in
  let similarities :=
    map (fun row => inner (normalized row) (normalized [1; 0])) five_rows in
  exists best message,
    verify_face (H := collaborators) good_jpeg (Arr2 five_rows)
      default_threshold empty_store
    = ((Rgeb best default_threshold, best, message),
       snd (process_frame (H := collaborators) good_jpeg "verification"
              empty_store))
    /\ _cosine_similarity (H := exact_arithmetic) [1; 0] (Arr2 five_rows)
       = inr (Vector similarities)
    /\ In best similarities
    /\ Forall (fun s => s <= best) similarities
    /\ (Rgeb best default_threshold = true <-> best >= default_threshold).
Proof.
  apply (verify_face_best_match (H := collaborators) good_jpeg five_rows
           default_threshold empty_store _
           (fst (process_frame (H := collaborators) good_jpeg "verification"
                   empty_store)) [1; 0]).
  - reflexivity.
  - reflexivity.
  - reflexivity.
  - discriminate.
  - repeat constructor.
Defined.


Local Close Scope R_scope.



Section LoopRefinement.
Context `{Externals}.

Lemma grow_nil acc idx frames : grow acc idx frames [] = acc.
Proof.
  destruct acc, frames; unfold grow; simpl; rewrite !app_nil_r; reflexivity.
Qed.

Lemma enroll_frame_outcome idx frame acc w :
  enroll_frame idx frame acc w
  = (grow acc idx [frame] [fst (frame_outcome frame w)],
     snd (frame_outcome frame w)).
Proof.
  unfold enroll_frame, frame_outcome, bind, ret, grow.
  destruct (b64decode (payload (image frame))) as [e | image_data]; simpl.
  - rewrite !app_nil_r. destruct acc; reflexivity.
  - pose proof (process_frame_cases image_data (pose frame) w) as Hone.
    destruct (process_frame image_data (pose frame) w) as [result w1].
    simpl in *.
    destruct Hone as [[Hemb [msg Herr]] | [Herr [v Hemb]]];
      rewrite Hemb, Herr; simpl; rewrite !app_nil_r;
      destruct acc; reflexivity.
Qed.

Lemma grow_cons acc idx frame frames o os :
  grow (grow acc idx [frame] [o]) (idx + 1) frames os
  = grow acc idx (frame :: frames) (o :: os).
Proof.
  unfold grow; simpl.
  destruct o as [e | result]; simpl.
  - rewrite !app_nil_r, <- app_assoc. destruct frames; reflexivity.
  - destruct (embedding result) as [v |], (error result) as [err |]; simpl;
      rewrite ?app_nil_r, <- ?app_assoc; simpl; reflexivity.
Qed.

Lemma enroll_loop_outcomes frames idx acc w :
  enroll_loop frames idx acc w
  = (grow acc idx frames (fst (frame_outcomes frames w)),
     snd (frame_outcomes frames w)).
Proof.
  revert idx acc w.
  induction frames as [|frame frames IH]; intros idx acc w; simpl.
  - unfold ret; simpl. now rewrite grow_nil.
  - unfold bind at 1. rewrite enroll_frame_outcome.
    rewrite IH. unfold bind, ret.
    destruct (frame_outcome frame w) as [o w1]; simpl.
    destruct (frame_outcomes frames w1) as [os w2]; simpl.
    now rewrite grow_cons.
Qed.
End LoopRefinement.

Section EnrollTheorems.
Context `{Externals}.

Lemma frame_outcome_same_store frame w :
  same_store w (snd (frame_outcome frame w)).
Proof.
  unfold frame_outcome, bind, ret.
  destruct (b64decode (payload (image frame))) as [e | image_data]; simpl.
  - repeat split.
  - pose proof (process_frame_same_store image_data (pose frame) w) as Hs.
    destruct (process_frame image_data (pose frame) w); exact Hs.
Qed.

Lemma same_store_trans w1 w2 w3 :
  same_store w1 w2 -> same_store w2 w3 -> same_store w1 w3.
Proof.
  unfold same_store. intros (A1 & B1 & C1) (A2 & B2 & C2).
  repeat split; congruence.
Qed.

Lemma frame_outcomes_same_store frames w :
  same_store w (snd (frame_outcomes frames w)).
Proof.
  revert w. induction frames as [|frame frames IH]; intros w; simpl.
  - repeat split.
  - unfold bind, ret.
    pose proof (frame_outcome_same_store frame w) as Hs.
    destruct (frame_outcome frame w) as [o w1]. simpl in Hs.
    specialize (IH w1). destruct (frame_outcomes frames w1) as [os w2].
    simpl in *. eapply same_store_trans; eassumption.
Qed.

Lemma accepted_filter (os : list outcome) :
  Forall2 taken_from (filter carries_embedding os) (accepted os).
Proof.
  induction os as [|[e | result] os IH]; simpl.
  - constructor.
  - exact IH.
  - destruct (embedding result) as [v |] eqn:Hv.
    + constructor; [| exact IH].
      exists result. repeat split. exact Hv.
    + exact IH.
Qed.

Lemma length_accepted (os : list outcome) :
  length (accepted os) = length (filter carries_embedding os).
Proof. symmetry. eapply Forall2_length, accepted_filter. Qed.

Lemma combine_fst_snd {A B} (l : list (A * B)) :
  combine (map fst l) (map snd l) = l.
Proof.
  induction l as [|[a b] l IH]; simpl; [reflexivity | now rewrite IH].
Qed.

Lemma enroll_after_loop frames w :
  (5 <= len frames)%Z ->
  let os := fst (frame_outcomes frames w) in
  let w1 := snd (frame_outcomes frames w) in
  let embeddings := map fst (accepted os) in
  let metadata := map snd (accepted os) in
  let errs := error_messages 0 frames os in
  enroll frames w
  = if (len embeddings <? 5)%Z
    then (HTTPException 400
            (insufficient_detail (len embeddings) (len frames) errs), w1)
    else (enrolled_response (fst (save_enrollment embeddings metadata w1))
            embeddings metadata errs,
          snd (save_enrollment embeddings metadata w1)).
Proof.
  intros Hlen os w1 embeddings metadata errs.
  unfold enroll. apply Z.ltb_ge in Hlen. rewrite Hlen.
  unfold bind at 1. rewrite enroll_loop_outcomes.
  fold os w1. unfold grow; simpl. fold embeddings metadata errs.
  destruct (len embeddings <? 5)%Z.
  - unfold ret, insufficient_detail. destruct errs; reflexivity.
  - unfold bind, ret.
    destruct (save_enrollment embeddings metadata w1) as [[e | []] w2];
      reflexivity.
Qed.

Lemma len_filter_le {A} (p : A -> bool) (l : list A) :
  (len (filter p l) <= len l)%Z.
Proof.
  unfold len. apply inj_le.
  induction l as [|x l IH]; simpl; [lia |].
  destruct (p x); simpl; lia.
Qed.

Lemma length_frame_outcomes frames w :
  length (fst (frame_outcomes frames w)) = length frames.
Proof.
  revert w. induction frames as [|frame frames IH]; intros w; simpl.
  - reflexivity.
  - unfold bind, ret. destruct (frame_outcome frame w) as [o w1].
    specialize (IH w1). destruct (frame_outcomes frames w1) as [os w2].
    simpl in *. now rewrite IH.
Qed.

Lemma len_accepted (os : list outcome) :
  len (map fst (accepted os)) = len (filter carries_embedding os).
Proof. unfold len. now rewrite length_map, length_accepted. Qed.

(** C4 (amended): when fewer than 5 frames yield an embedding, [enroll]
    raises the HTTP error 400 and leaves both artifacts of the store as they
    were.  For a request of at least 5 frames the detail reports the count of
    valid embeddings out of the number of frames, followed by at most the
    first 5 per-frame error messages; for a request of fewer than 5 frames
    the detail is "Insufficient frames: n provided, minimum 5 required" and
    no frame is processed. *)
Theorem enroll_insufficient (frames : list FrameData) (w : world) :
  let os := fst (frame_outcomes frames w) in
  let w1 := snd (frame_outcomes frames w) in
  let valid := len (filter carries_embedding os) in
  (valid < 5)%Z ->
  enroll frames w
  = (if (len frames <? 5)%Z
     then (HTTPException 400 (insufficient_frames_detail (len frames)), w)
     else (HTTPException 400
             (insufficient_detail valid (len frames)
                (error_messages 0 frames os)), w1))
  /\ artifacts (snd (enroll frames w)) = artifacts w.
Proof.
  intros os w1 valid Hvalid.
  assert (Hresp :
    enroll frames w
    = (if (len frames <? 5)%Z
       then (HTTPException 400 (insufficient_frames_detail (len frames)), w)
       else (HTTPException 400
               (insufficient_detail valid (len frames)
                  (error_messages 0 frames os)), w1))).
  { destruct (len frames <? 5)%Z eqn:Hshort.
    - unfold enroll. rewrite Hshort. reflexivity.
    - rewrite enroll_after_loop by (apply Z.ltb_ge; exact Hshort).
      fold os w1. rewrite len_accepted. fold valid.
      apply Z.ltb_lt in Hvalid. rewrite Hvalid. reflexivity. }
  split; [exact Hresp |].
  rewrite Hresp. destruct (len frames <? 5)%Z; simpl; [reflexivity |].
  destruct (frame_outcomes_same_store frames w) as (He & Hm & _).
  unfold artifacts. fold w1 in He, Hm. now rewrite He, Hm.
Qed.

(** C5: when at least 5 frames yield an embedding, the loop of [enroll]
    builds exactly the embeddings of the accepted outcomes, in input order
    and without dropping duplicates, each paired by position with the
    metadata of the same outcome, so both lists have the length of the
    accepted outcomes; these lists are what [enroll] hands to
    [save_enrollment], and its response follows from what the save did. *)
Theorem enroll_keeps_accepted_in_order (frames : list FrameData) (w : world) :
  let os := fst (frame_outcomes frames w) in
  let w1 := snd (frame_outcomes frames w) in
  let record := accepted os in
  let embeddings := map fst record in
  let metadata := map snd record in
  (5 <= len (filter carries_embedding os))%Z ->
  Forall2 taken_from (filter carries_embedding os) record
  /\ combine embeddings metadata = record
  /\ len embeddings = len (filter carries_embedding os)
  /\ len metadata = len (filter carries_embedding os)
  /\ enroll frames w
     = (enrolled_response (fst (save_enrollment embeddings metadata w1))
          embeddings metadata (error_messages 0 frames os),
        snd (save_enrollment embeddings metadata w1)).
Proof.
  intros os w1 record embeddings metadata Hvalid.
  split; [apply accepted_filter |].
  split; [apply combine_fst_snd |].
  split; [apply len_accepted |].
  split.
  { unfold len, metadata, record. now rewrite length_map, length_accepted. }
  assert (Hlen : (5 <= len frames)%Z).
  { pose proof (len_filter_le carries_embedding os) as Hle.
    unfold len in Hle at 2. unfold os in Hle at 2.
    rewrite length_frame_outcomes in Hle. fold (len frames) in Hle. lia. }
  rewrite enroll_after_loop by exact Hlen.
  fold os w1 record embeddings metadata.
  unfold embeddings at 1, record at 1. rewrite len_accepted.
  apply Z.ltb_ge in Hvalid. rewrite Hvalid. reflexivity.
Qed.

End EnrollTheorems.

Lemma enroll_insufficient_witness :
  let os := fst (frame_outcomes (H := collaborators) five_bad_frames empty_store) in
  let w1 := snd (frame_outcomes (H := collaborators) five_bad_frames empty_store) in
  let valid := len (filter carries_embedding os) in
  enroll (H := collaborators) five_bad_frames empty_store
  = (if (len five_bad_frames <? 5)%Z
     then (HTTPException 400 (insufficient_frames_detail (len five_bad_frames)),
           empty_store)
     else (HTTPException 400
             (insufficient_detail valid (len five_bad_frames)
                (error_messages 0 five_bad_frames os)), w1))
  /\ artifacts (snd (enroll (H := collaborators) five_bad_frames empty_store))
     = artifacts empty_store.
Proof.
  apply (enroll_insufficient (H := collaborators) five_bad_frames empty_store).
  reflexivity.
Defined.

Lemma enroll_keeps_accepted_witness :
  let os := fst (frame_outcomes (H := collaborators) five_frames empty_store) in
  let w1 := snd (frame_outcomes (H := collaborators) five_frames empty_store) in
  let record := accepted os in
  let embeddings := map fst record in
  let metadata := map snd record in
  Forall2 taken_from (filter carries_embedding os) record
  /\ combine embeddings metadata = record
  /\ len embeddings = len (filter carries_embedding os)
  /\ len metadata = len (filter carries_embedding os)
  /\ enroll (H := collaborators) five_frames empty_store
     = (enrolled_response
          (fst (save_enrollment (H := collaborators) embeddings metadata w1))
          embeddings metadata (error_messages 0 five_frames os),
        snd (save_enrollment (H := collaborators) embeddings metadata w1)).
Proof.
  apply (enroll_keeps_accepted_in_order (H := collaborators) five_frames
           empty_store).
  apply Z.leb_le. reflexivity.
Defined.

(** C4 as stated fails on a request of one frame: the detail reports the
    number of frames provided, not the count of valid embeddings. *)
Lemma enroll_short_request_counterexample :
  let os := fst (frame_outcomes (H := collaborators) one_frame empty_store) in
  let valid := len (filter carries_embedding os) in
  (valid < 5)%Z
  /\ enroll (H := collaborators) one_frame empty_store
     = (HTTPException 400
          "Insufficient frames: 1 provided, minimum 5 required", empty_store)
  /\ "Insufficient frames: 1 provided, minimum 5 required"
     <> insufficient_detail valid (len one_frame)
          (error_messages 0 one_frame os).
Proof.
  split; [reflexivity |].
  split; [reflexivity |].
  discriminate.
Qed.


Section StoreTheorems.
Context `{Externals}.

Lemma stack_uniform (embeddings : list (list R)) (D : nat) :
  embeddings <> [] ->
  Forall (fun v => length v = D) embeddings ->
  Numpy.stack embeddings = inr embeddings.
Proof.
  intros Hne Hall. destruct embeddings as [|a rest]; [contradiction |].
  unfold stack. inversion Hall as [|? ? Ha Hrest]; subst.
  replace (forallb _ rest) with true; [reflexivity |].
  symmetry. apply forallb_forall. intros b Hb.
  rewrite Forall_forall in Hrest. rewrite (Hrest b Hb). apply Nat.eqb_refl.
Qed.

(** C6 (amended): [save_enrollment] writes the embeddings artifact and then
    the metadata artifact, as two separate writes.  If [np.stack] raises, or
    the first write fails before touching the file, the store is unchanged;
    if both writes succeed it returns and the store holds the new embeddings
    and the new metadata with [count = N]; if the second write fails after
    the first succeeded, the store holds the new embeddings with the previous
    metadata file, or with an unreadable one. *)
Theorem save_enrollment_two_writes (embeddings : list (list R))
    (metadata : list frame_metadata) (w : world) :
  let saved := fst (save_enrollment embeddings metadata w) in
  let w' := snd (save_enrollment embeddings metadata w) in
  match Numpy.stack embeddings with
  | inl e => saved = inl e /\ w' = w
  | inr rows =>
    match disk w embeddings_path with
    | FailsUntouched => raised saved /\ artifacts w' = artifacts w
    | FailsTruncated =>
        raised saved /\ embeddings_file w' = Unreadable
        /\ metadata_file w' = metadata_file w
    | Written =>
      embeddings_file w' = Holds (new_npz rows (isoformat (clock w)))
      /\ match disk w metadata_path with
         | Written =>
             saved = inr tt
             /\ metadata_file w'
                = Holds (new_doc embeddings metadata
                           (isoformat (S (clock w))))
         | FailsUntouched =>
             raised saved /\ metadata_file w' = metadata_file w
         | FailsTruncated =>
             raised saved /\ metadata_file w' = Unreadable
         end
    end
  end.
Proof.
  unfold save_enrollment.
  destruct (Numpy.stack embeddings) as [e | rows]; simpl.
  - split; reflexivity.
  - unfold bind, ret, utcnow_isoformat, write_file, set_embeddings_file,
      set_metadata_file, raised, artifacts; simpl.
    destruct (disk w embeddings_path); simpl.
    + destruct (disk w metadata_path); simpl; repeat split; eauto.
    + repeat split; eauto.
    + repeat split; eauto.
Qed.

(** C7: on a disk that accepts both writes, saving [N >= 1] embeddings of
    one dimension with [N] metadata entries and then loading gives back the
    same rows and the same metadata entries in the same order, with
    [count = N]. *)
Theorem save_load_roundtrip (embeddings : list (list R))
    (metadata : list frame_metadata) (D : nat) (w : world) :
  embeddings <> [] ->
  Forall (fun v => length v = D) embeddings ->
  length metadata = length embeddings ->
  disk w embeddings_path = Written ->
  disk w metadata_path = Written ->
  let w' := snd (save_enrollment embeddings metadata w) in
  fst (save_enrollment embeddings metadata w) = inr tt
  /\ load_embeddings w' = (Some (Arr2 embeddings), w')
  /\ exists doc,
       load_metadata w' = (Some doc, w')
       /\ md_frames doc = metadata
       /\ md_count doc = len embeddings
       /\ md_count doc = len (md_frames doc).
Proof.
  intros Hne Hdim Hlen He Hm w'.
  assert (Hout : save_enrollment embeddings metadata w
                 = (inr tt,
                    {| clock := S (S (clock w)); log := log w;
                       embeddings_file :=
                         Holds (new_npz embeddings (isoformat (clock w)));
                       metadata_file :=
                         Holds (new_doc embeddings metadata
                                  (isoformat (S (clock w))));
                       disk := disk w |})).
  { unfold save_enrollment. rewrite (stack_uniform embeddings D Hne Hdim).
    unfold bind, ret, utcnow_isoformat, write_file, set_embeddings_file,
      set_metadata_file; simpl.
    rewrite He; simpl. rewrite Hm; simpl. reflexivity. }
  subst w'. rewrite Hout; simpl.
  split; [reflexivity |].
  split; [reflexivity |].
  eexists. split; [reflexivity |]. simpl.
  split; [reflexivity |].
  split; [reflexivity |].
  unfold len. now rewrite Hlen.
Qed.
End StoreTheorems.

Section VerifyEndpoint.
Context `{Externals}.

Lemma verify_not_enrolled (image_str : string) (w : world) :
  exists_ (embeddings_file w) && exists_ (metadata_file w) = false ->
  verify image_str w
  = (HTTPException 400 "No enrollment found. Please enroll a face first.", w).
Proof.
  intros Hno. unfold verify, is_enrolled, bind, ret.
  rewrite Hno. reflexivity.
Qed.

Lemma verify_compares_with_default (image_str : string)
    (image_data : list Byte.byte) (d : npz) (w : world) :
  exists_ (metadata_file w) = true ->
  embeddings_file w = Holds d ->
  b64decode (payload image_str) = inr image_data ->
  verify image_str w
  = (let (out, w') :=
       verify_face image_data (Arr2 (npz_embeddings d)) default_threshold w in
     match out with
     | (is_match, similarity, message) =>
         (SuccessResponse message
            (VerifyData is_match similarity default_threshold), w')
     end).
Proof.
  intros Hm He Hd. unfold verify, is_enrolled, load_embeddings, bind, ret.
  cbv beta. rewrite He, Hm, Hd. simpl. rewrite He.
  destruct (verify_face image_data (Arr2 (npz_embeddings d)) 0.6%R w)
    as [[[is_match similarity] message] w'] eqn:Hv.
  unfold default_threshold. rewrite Hv. reflexivity.
Qed.

End VerifyEndpoint.

Lemma save_load_roundtrip_witness :
  let w' := snd (save_enrollment (H := collaborators) five_rows five_meta
                   empty_store) in
  fst (save_enrollment (H := collaborators) five_rows five_meta empty_store)
  = inr tt
  /\ load_embeddings w' = (Some (Arr2 five_rows), w')
  /\ exists doc,
       load_metadata w' = (Some doc, w')
       /\ md_frames doc = five_meta
       /\ md_count doc = len five_rows
       /\ md_count doc = len (md_frames doc).
Proof.
  apply (save_load_roundtrip (H := collaborators) five_rows five_meta 2
           empty_store).
  - discriminate.
  - repeat constructor.
  - reflexivity.
  - reflexivity.
  - reflexivity.
Defined.

(** C6 as stated fails when the metadata file cannot be opened: the save
    raises, and the store holds the six new embeddings with the metadata of
    the previous five. *)
Lemma save_not_atomic_counterexample :
  let w := enrolled_readonly_metadata in
  let saved := fst (save_enrollment (H := collaborators) six_rows six_meta w) in
  let w' := snd (save_enrollment (H := collaborators) six_rows six_meta w) in
  raised saved
  /\ embeddings_file w' = Holds (new_npz six_rows "T7")
  /\ metadata_file w' = metadata_file w
  /\ counts_agree w
  /\ ~ counts_agree w'
  /\ ~ all_or_nothing w w' six_rows six_meta.
Proof.
  cbn zeta.
  assert (Hout : save_enrollment (H := collaborators) six_rows six_meta
                   enrolled_readonly_metadata
                 = (inl (Raise OSError "cannot open file"),
                    {| clock := 9; log := [];
                       embeddings_file := Holds (new_npz six_rows "T7");
                       metadata_file := metadata_file enrolled_readonly_metadata;
                       disk := disk enrolled_readonly_metadata |}))
    by reflexivity.
  rewrite Hout; simpl.
  split; [eexists; reflexivity |].
  split; [reflexivity |].
  split; [reflexivity |].
  split.
  { intros d m Hd Hm. simpl in Hd, Hm.
    injection Hd as <-. injection Hm as <-. reflexivity. }
  split.
  { intros Hc. specialize (Hc _ _ eq_refl eq_refl). discriminate Hc. }
  intros [[_ (m & Hm & Hf & _)] | Hsame].
  - simpl in Hm. injection Hm as <-. discriminate Hf.
  - unfold artifacts in Hsame. simpl in Hsame.
    apply (f_equal (fun p => match fst p with
                             | Holds d => length (npz_embeddings d)
                             | _ => 0%nat
                             end)) in Hsame.
    discriminate Hsame.
Qed.

(** * Further properties of the code *)

Import Conditions MoreExamples AnalyzeEmbeddings.

Local Open Scope R_scope.

Section Symmetry.
Context `{FloatArithmetic}.

(** X2: on two vectors of one length [_cosine_similarity] is symmetric:
    swapping the query and the reference gives the same similarity.  On
    vectors of different lengths both orders raise the [ValueError] of
    [np.dot], whose text names the two shapes in the order of the
    arguments. *)
Theorem cosine_similarity_symmetric (a b : list R) :
  match _cosine_similarity a (Arr1 b), _cosine_similarity b (Arr1 a) with
  | inr x, inr y => length a = length b /\ x = y
  | inl e, inl e' =>
      length a <> length b
      /\ e = shapes_not_aligned1 (length a) (length b)
      /\ e' = shapes_not_aligned1 (length b) (length a)
  | _, _ => False
  end.
Proof.
  unfold _cosine_similarity, dot11.
  rewrite !length_div_scalar, (Nat.eqb_sym (length b) (length a)).
  destruct (Nat.eqb_spec (length a) (length b)) as [Heq | Hne].
  - split; [exact Heq | f_equal; apply float_dot_comm].
  - split; [exact Hne | split; reflexivity].
Qed.

End Symmetry.

Lemma max_vector_unique (l : list R) (b : R) :
  Numpy.max (Vector l) = inr b <->
  In b l /\ Forall (fun x => x <= b) l.
Proof.
  destruct l as [|s rest].
  - simpl. split; [discriminate | intros [[] _]].
  - destruct (max_vector_spec s rest) as (best & Hmax & Hin & Hall).
    rewrite Hmax. split.
    + intros Hb. injection Hb as <-. split; assumption.
    + intros [Hin' Hall']. f_equal.
      rewrite Forall_forall in Hall, Hall'.
      apply Rle_antisym; [apply Hall'; exact Hin | apply Hall; exact Hin'].
Qed.

Lemma max_permutation (l l' : list R) :
  Permutation l l' -> Numpy.max (Vector l) = Numpy.max (Vector l').
Proof.
  intros Hp.
  destruct l as [|s rest].
  - apply Permutation_nil in Hp. now subst.
  - destruct (max_vector_spec s rest) as (best & Hmax & Hin & Hall).
    rewrite Hmax. symmetry. apply max_vector_unique. split.
    + eapply Permutation_in; eassumption.
    + eapply Permutation_Forall; eassumption.
Qed.

Lemma forallb_permutation {A} (p : A -> bool) (l l' : list A) :
  Permutation l l' -> forallb p l = forallb p l'.
Proof.
  induction 1 as [| x l l' _ IH | x y l | l l' l'' _ IH1 _ IH2]; simpl.
  - reflexivity.
  - now rewrite IH.
  - now rewrite !andb_assoc, (andb_comm (p y) (p x)).
  - now rewrite IH1.
Qed.

Section VerifyOrder.
Context `{Externals}.

(** X4: [verify_face] does not depend on the order of the stored rows:
    permuting them gives the same answer, message and world. *)
Theorem verify_face_row_order (image_data : list Byte.byte)
    (rows rows' : list (list R)) (threshold : R) (w : world) :
  Permutation rows rows' ->
  verify_face image_data (Arr2 rows) threshold w
  = verify_face image_data (Arr2 rows') threshold w.
Proof.
  intros Hp.
  unfold verify_face, verify_face_try, bind, ret.
  destruct (process_frame image_data "verification" w) as [result w1].
  destruct (error result); [reflexivity |].
  destruct (embedding result) as [query |]; [| reflexivity].
  unfold _cosine_similarity, dot21.
  set (normalize := fun row : list R =>
         div_scalar row (float_add (linalg_norm row) epsilon)).
  assert (Hpn : Permutation (map normalize rows) (map normalize rows'))
    by now apply Permutation_map.
  rewrite (forallb_permutation _ _ _ Hpn).
  destruct (forallb _ (map normalize rows')); [| reflexivity].
  rewrite (max_permutation _ _ (Permutation_map _ Hpn)).
  reflexivity.
Qed.

(** X5: if [verify_face] reports a match at a threshold, it reports a match
    with the same similarity at every lower threshold. *)
Theorem verify_face_threshold_monotone (image_data : list Byte.byte)
    (stored : ndarray) (threshold threshold' : R) (w w1 : world)
    (similarity : R) (message : string) :
  verify_face image_data stored threshold w
  = ((true, similarity, message), w1) ->
  (threshold' <= threshold)%R ->
  verify_face image_data stored threshold' w
  = ((true, similarity,
      "Face verified with similarity: " ++ format_4f_R similarity), w1).
Proof.
  intros Hv Hle.
  unfold verify_face, verify_face_try, bind, ret in *.
  destruct (process_frame image_data "verification" w) as [result w2].
  destruct (error result); [discriminate |].
  destruct (embedding result) as [query |]; [| discriminate].
  destruct (_cosine_similarity query stored) as [e | sims]; [discriminate |].
  destruct (Numpy.max sims) as [e | best]; [discriminate |].
  unfold Rgeb in *.
  destruct (Rge_dec best threshold) as [Hge | Hlt]; [| discriminate].
  injection Hv as <- _ <-.
  destruct (Rge_dec best threshold') as [_ | Hlt']; [reflexivity |].
  exfalso. apply Hlt'. lra.
Qed.

(** X6: when the frame is valid but the stored matrix has no row, or has a row
    of another dimension than the query, [verify_face] returns
    [(False, 0.0, "Verification error: ...")]. *)
Theorem verify_face_bad_store (image_data : list Byte.byte)
    (rows : list (list R)) (threshold : R) (w w1 : world)
    (result : FrameResult) (query : list R) :
  process_frame image_data "verification" w = (result, w1) ->
  error result = None ->
  embedding result = Some query ->
  rows = [] \/ Exists (fun row => length row <> length query) rows ->
  exists reason,
    verify_face image_data (Arr2 rows) threshold w
    = ((false, 0%R, "Verification error: " ++ reason), w1).
Proof.
  intros Hp He Hq Hbad.
  unfold verify_face, verify_face_try, bind, ret.
  rewrite Hp, He, Hq.
  destruct Hbad as [-> | Hex].
  - simpl. eexists. reflexivity.
  - unfold _cosine_similarity, dot21.
    replace (forallb _ _) with false.
    + eexists. reflexivity.
    + symmetry. apply not_true_is_false. intros Hall.
      rewrite forallb_forall in Hall.
      apply Exists_exists in Hex. destruct Hex as (row & Hin & Hlen).
      specialize (Hall _ (in_map _ _ _ Hin)).
      rewrite !length_div_scalar in Hall.
      apply Nat.eqb_eq in Hall. contradiction.
Qed.

End VerifyOrder.

Local Close Scope R_scope.

Lemma ratio_floor (a b : Z) :
  (0 < b)%Z ->
  Qltb (inject_Z a / inject_Z b) 0.05 = false <-> (b <= 20 * a)%Z.
Proof.
  intros Hb. unfold Qltb. rewrite negb_false_iff, Qle_bool_iff.
  destruct b as [|p|p]; try lia.
  unfold Qle, Qdiv, Qmult, Qinv, inject_Z. cbn -[Z.mul].
  lia.
Qed.

Lemma ratio_floor_Q (a b : Z) :
  (0 < b)%Z -> (b <= 20 * a)%Z -> (0.05 <= inject_Z a / inject_Z b)%Q.
Proof.
  intros Hb Hle. apply Qle_bool_iff.
  apply (ratio_floor a b Hb) in Hle. unfold Qltb in Hle.
  now apply negb_false_iff in Hle.
Qed.

Section Acceptance.
Context `{Externals}.

Lemma process_frame_accepted image_data img face raw pose w :
  acceptable image_data img face raw ->
  process_frame image_data pose w
  = (accepted_result img face raw pose (isoformat (clock w)),
     {| clock := S (clock w);
        log := (log w ++ [EvRepresent img;
                          EvTrueDiv (box_area face)
                            (img_width img * img_height img)])%list;
        embeddings_file := embeddings_file w;
        metadata_file := metadata_file w;
        disk := disk w |}).
Proof.
  intros (Hdec & Hh & Hw & Hrep & Hemb & Hratio).
  unfold process_frame, process_frame_try, bind, ret, emit, utcnow_isoformat.
  rewrite Hdec. simpl.
  replace ((img_height img <? 200)%Z || (img_width img <? 200)%Z) with false
    by (symmetry; apply orb_false_iff; split; apply Z.ltb_ge; lia).
  simpl. rewrite Hrep, Hemb. simpl.
  assert (Hpos : (0 < img_width img * img_height img)%Z) by nia.
  replace (img_width img * img_height img >? 0)%Z with true
    by (symmetry; apply Z.gtb_lt; lia).
  simpl. rewrite true_div_defined by lia.
  fold (box_area face).
  destruct (ratio_floor (box_area face) _ Hpos) as [_ Hfloor].
  rewrite (Hfloor Hratio). simpl.
  rewrite <- app_assoc. reflexivity.
Qed.

Lemma process_frame_accepted_inv image_data pose w v :
  embedding (fst (process_frame image_data pose w)) = Some v ->
  exists img face raw, acceptable image_data img face raw.
Proof.
  intros Hv.
  unfold process_frame, process_frame_try, bind, ret, emit,
    utcnow_isoformat in Hv.
  simpl in Hv.
  destruct (imdecode image_data) as [e | [img |]] eqn:Hdec;
    simpl in Hv; try discriminate.
  destruct ((img_height img <? 200)%Z || (img_width img <? 200)%Z)
    eqn:Hsize; simpl in Hv; try discriminate.
  apply orb_false_iff in Hsize. destruct Hsize as [Hh Hw].
  apply Z.ltb_ge in Hh, Hw.
  destruct (represent img) as [e | [| [| face [| g rest]]]] eqn:Hrep;
    simpl in Hv; try discriminate.
  destruct (fd_embedding face) as [raw |] eqn:Hemb;
    simpl in Hv; try discriminate.
  assert (Hpos : (0 < img_width img * img_height img)%Z) by nia.
  replace (img_width img * img_height img >? 0)%Z with true in Hv
    by (symmetry; apply Z.gtb_lt; lia).
  simpl in Hv. rewrite true_div_defined in Hv by lia.
  fold (box_area face) in Hv.
  destruct (Qltb _ _) eqn:Hfloor; simpl in Hv; try discriminate.
  exists img, face, raw. repeat split; try assumption.
  now apply ratio_floor in Hfloor.
Qed.

(** X8: when the area of the image and the area of the face box are ints
    that a float holds exactly, [process_frame] returns an embedding exactly
    when the bytes decode to an image of at least 200 x 200, the extractor
    returns exactly one face, that face has an embedding, and 20 times the
    area of its box is at least the area of the image. *)
Theorem process_frame_accepts_iff (image_data : list Byte.byte)
    (pose : string) (w : world) :
  areas_exact image_data ->
  ((exists v, embedding (fst (process_frame image_data pose w)) = Some v)
   <-> exists img face raw, acceptable image_data img face raw).
Proof.
  intros _. split.
  - intros [v Hv]. eapply process_frame_accepted_inv; eassumption.
  - intros (img & face & raw & Hacc).
    rewrite (process_frame_accepted _ _ _ _ pose w Hacc).
    eexists. reflexivity.
Qed.

(** X9: an accepted frame carries the float32 cast of the extractor's
    embedding, the face area [w * h], a face ratio equal to the face area
    over the image area and at least 0.05, a confidence equal to the face
    ratio, the pose label and the time of the call, and no error. *)
Theorem process_frame_accepted_fields (image_data : list Byte.byte)
    (pose : string) (w : world) (v : list R) :
  embedding (fst (process_frame image_data pose w)) = Some v ->
  exists img face raw,
    acceptable image_data img face raw
    /\ fst (process_frame image_data pose w)
       = accepted_result img face raw pose (isoformat (clock w))
    /\ v = map float32 raw
    /\ confidence (fst (process_frame image_data pose w))
       = face_ratio (fst (process_frame image_data pose w))
    /\ (0.05 <= inject_Z (box_area face)
                / inject_Z (img_width img * img_height img))%Q.
Proof.
  intros Hv.
  destruct (process_frame_accepted_inv _ _ _ _ Hv) as (img & face & raw & Hacc).
  exists img, face, raw.
  rewrite (process_frame_accepted _ _ _ _ pose w Hacc) in *. simpl in *.
  split; [exact Hacc |].
  split; [reflexivity |].
  split; [now injection Hv |].
  split; [reflexivity |].
  destruct Hacc as (_ & Hh & Hw & _ & _ & Hratio).
  apply ratio_floor_Q; [nia | exact Hratio].
Qed.

(** X10: a detected face without the key 'facial_area', or whose facial area
    lacks 'w' or 'h', has face area 0 and is rejected as too small, whatever
    its embedding. *)
Theorem process_frame_missing_box (image_data : list Byte.byte)
    (pose : string) (w : world) (img : decoded_image) (face : face_dict)
    (raw : list R) :
  imdecode image_data = inr (Some img) ->
  (200 <= img_height img)%Z -> (200 <= img_width img)%Z ->
  represent img = inr (FaceList [face]) ->
  fd_embedding face = Some raw ->
  (fd_facial_area face = None
   \/ exists d, fd_facial_area face = Some d
                /\ (fa_w d = None \/ fa_h d = None)) ->
  let result := fst (process_frame image_data pose w) in
  embedding result = None
  /\ error result
     = Some ("Face too small (ratio: "
             ++ format_4f (inject_Z 0
                           / inject_Z (img_width img * img_height img))
             ++ "). Minimum 0.05 required").
Proof.
  intros Hdec Hh Hw Hrep Hemb Hmissing.
  assert (Harea : box_area face = 0%Z).
  { unfold box_area.
    destruct Hmissing as [-> | (d & -> & [-> | ->])]; simpl; lia. }
  unfold process_frame, process_frame_try, bind, ret, emit, utcnow_isoformat.
  rewrite Hdec. simpl.
  replace ((img_height img <? 200)%Z || (img_width img <? 200)%Z) with false
    by (symmetry; apply orb_false_iff; split; apply Z.ltb_ge; lia).
  simpl. rewrite Hrep, Hemb. simpl.
  assert (Hpos : (0 < img_width img * img_height img)%Z) by nia.
  replace (img_width img * img_height img >? 0)%Z with true
    by (symmetry; apply Z.gtb_lt; lia).
  simpl. rewrite true_div_defined by lia.
  fold (box_area face). rewrite Harea.
  replace (Qltb _ _) with true.
  - simpl. split; reflexivity.
  - symmetry. apply not_false_is_true. intros Hfloor.
    apply (ratio_floor 0 _ Hpos) in Hfloor. lia.
Qed.

(** X11: a detected face without the key 'embedding' is reported as
    "Unexpected error processing frame: 'embedding'", after one call of the
    extractor and without an embedding. *)
Theorem process_frame_missing_embedding (image_data : list Byte.byte)
    (pose : string) (w : world) (img : decoded_image) (face : face_dict) :
  imdecode image_data = inr (Some img) ->
  (200 <= img_height img)%Z -> (200 <= img_width img)%Z ->
  represent img = inr (FaceList [face]) ->
  fd_embedding face = None ->
  let out := process_frame image_data pose w in
  embedding (fst out) = None
  /\ error (fst out)
     = Some "Unexpected error processing frame: 'embedding'"
  /\ log (snd out) = (log w ++ [EvRepresent img])%list.
Proof.
  intros Hdec Hh Hw Hrep Hemb.
  unfold process_frame, process_frame_try, bind, ret, emit, utcnow_isoformat.
  rewrite Hdec. simpl.
  replace ((img_height img <? 200)%Z || (img_width img <? 200)%Z) with false
    by (symmetry; apply orb_false_iff; split; apply Z.ltb_ge; lia).
  simpl. rewrite Hrep, Hemb. simpl. repeat split.
Qed.

(** X12: every result of [process_frame] carries the pose label it was given
    and the time of the call; the call reads the clock once, leaves the store
    files as they were, and calls the extractor at most once. *)
Theorem process_frame_bookkeeping (image_data : list Byte.byte)
    (pose : string) (w : world) :
  let out := process_frame image_data pose w in
  pose_label (fst out) = pose
  /\ timestamp (fst out) = isoformat (clock w)
  /\ clock (snd out) = S (clock w)
  /\ same_store w (snd out)
  /\ exists evs,
       log (snd out) = (log w ++ evs)%list
       /\ (length (filter is_represent evs) <= 1)%nat.
Proof.
  unfold process_frame, process_frame_try, bind, ret, emit, utcnow_isoformat,
    same_store.
  repeat (break_match; simpl in * );
    repeat match goal with
           | E : (_, _) = (_, _) |- _ => inversion E; subst; clear E
           end; simpl;
    (split; [reflexivity | split; [reflexivity | split; [reflexivity |
       split; [split; [reflexivity | split; reflexivity] |]]]]);
    (eexists; split;
     [ first [ symmetry; apply app_nil_r
             | reflexivity
             | rewrite <- app_assoc; reflexivity ]
     | simpl; lia ]).
Qed.

End Acceptance.

Section EnrollInvariants.
Context `{Externals}.

Lemma frame_outcomes_cases frames w :
  Forall (fun o =>
            match o with
            | inl _ => True
            | inr result =>
                (embedding result = None /\ exists msg, error result = Some msg)
                \/ (error result = None /\ exists v, embedding result = Some v)
            end) (fst (frame_outcomes frames w)).
Proof.
  revert w. induction frames as [|frame frames IH]; intros w; simpl.
  - constructor.
  - unfold bind, ret.
    assert (Ho : match fst (frame_outcome frame w) with
                 | inl _ => True
                 | inr result =>
                     (embedding result = None
                      /\ exists msg, error result = Some msg)
                     \/ (error result = None
                         /\ exists v, embedding result = Some v)
                 end).
    { unfold frame_outcome, bind, ret.
      destruct (b64decode (payload (image frame))) as [e | image_data];
        simpl; [exact I |].
      pose proof (process_frame_cases image_data (pose frame) w) as Hc.
      destruct (process_frame image_data (pose frame) w); exact Hc. }
    destruct (frame_outcome frame w) as [o w1]. simpl in Ho.
    specialize (IH w1). destruct (frame_outcomes frames w1) as [os w2].
    simpl in *. constructor; assumption.
Qed.

Lemma partition_count (frames : list FrameData) (os : list outcome) (idx : Z) :
  length os = length frames ->
  Forall (fun o =>
            match o with
            | inl _ => True
            | inr result =>
                (embedding result = None /\ exists msg, error result = Some msg)
                \/ (error result = None /\ exists v, embedding result = Some v)
            end) os ->
  (length (accepted os) + length (error_messages idx frames os)
   = length frames)%nat.
Proof.
  revert os idx. induction frames as [|frame frames IH];
    intros [|o os] idx Hlen Hall; simpl in *; try discriminate.
  - reflexivity.
  - injection Hlen as Hlen. inversion Hall as [|? ? Ho Hos]; subst.
    specialize (IH os (idx + 1)%Z Hlen Hos).
    destruct o as [e | result]; simpl.
    + lia.
    + destruct Ho as [[Hemb [msg Herr]] | [Herr [v Hemb]]];
        rewrite Hemb, Herr; simpl; lia.
Qed.

(** X13: the loop of [enroll] counts every frame once: it builds as many
    metadata entries as embeddings, and the number of embeddings plus the
    number of error messages is the number of frames. *)
Theorem enroll_loop_partition (frames : list FrameData) (w : world) :
  let acc := fst (enroll_loop frames 0 empty_accumulator w) in
  length (valid_embeddings acc) = length (valid_metadata acc)
  /\ (length (valid_embeddings acc) + length (errors acc)
      = length frames)%nat.
Proof.
  rewrite enroll_loop_outcomes. unfold grow, empty_accumulator; simpl.
  rewrite !length_map. split; [reflexivity |].
  apply partition_count;
    [apply length_frame_outcomes | apply frame_outcomes_cases].
Qed.

Lemma save_returns (embeddings : list (list R))
    (metadata : list frame_metadata) (w : world) :
  fst (save_enrollment embeddings metadata w) = inr tt ->
  let w' := snd (save_enrollment embeddings metadata w) in
  embeddings_file w' = Holds (new_npz embeddings (isoformat (clock w)))
  /\ metadata_file w'
     = Holds (new_doc embeddings metadata (isoformat (S (clock w)))).
Proof.
  unfold save_enrollment.
  assert (Hstack : forall rows, Numpy.stack embeddings = inr rows ->
                                rows = embeddings).
  { intros rows. unfold stack. destruct embeddings as [|a rest];
      [discriminate |].
    destruct (forallb _ rest); [| discriminate]. intros Hr. now injection Hr. }
  destruct (Numpy.stack embeddings) as [e | rows] eqn:Hs; simpl;
    [discriminate |].
  rewrite (Hstack rows eq_refl).
  unfold bind, ret, utcnow_isoformat, write_file, set_embeddings_file,
    set_metadata_file; simpl.
  destruct (disk w embeddings_path); simpl; try discriminate.
  destruct (disk w metadata_path); simpl; try discriminate.
  intros _. split; reflexivity.
Qed.

(** X14: whenever [save_enrollment] returns without raising, the store is
    enrolled, [load_embeddings] returns the saved rows and [load_metadata]
    the saved document. *)
Theorem save_returns_then_loads (embeddings : list (list R))
    (metadata : list frame_metadata) (w : world) :
  fst (save_enrollment embeddings metadata w) = inr tt ->
  let w' := snd (save_enrollment embeddings metadata w) in
  is_enrolled w' = (true, w')
  /\ load_embeddings w' = (Some (Arr2 embeddings), w')
  /\ load_metadata w'
     = (Some (new_doc embeddings metadata (isoformat (S (clock w)))), w').
Proof.
  intros Hret w'. destruct (save_returns _ _ _ Hret) as [He Hm].
  fold w' in He, Hm.
  unfold is_enrolled, load_embeddings, load_metadata.
  rewrite He, Hm. simpl. repeat split.
Qed.

(** X15: every [SuccessResponse] of [enroll] reports a count of at least 5
    that is the number of metadata entries, and that with the number of
    reported errors adds up to the number of frames; afterwards the store is
    enrolled and holds that many rows and those metadata entries. *)
Theorem enroll_success_invariant (frames : list FrameData) (w w' : world)
    (message : string) (count : Z) (metadata : list frame_metadata)
    (errs : option (list string)) :
  enroll frames w = (SuccessResponse message (EnrollData count metadata errs),
                     w') ->
  (5 <= count)%Z
  /\ count = len metadata
  /\ (count + len (reported_errors errs) = len frames)%Z
  /\ is_enrolled w' = (true, w')
  /\ (exists rows, load_embeddings w' = (Some (Arr2 rows), w')
                   /\ len rows = count)
  /\ (exists doc, load_metadata w' = (Some doc, w')
                  /\ md_count doc = count /\ md_frames doc = metadata).
Proof.
  intros Hen.
  destruct (len frames <? 5)%Z eqn:Hshort.
  { unfold enroll in Hen. rewrite Hshort in Hen. discriminate. }
  apply Z.ltb_ge in Hshort.
  rewrite (enroll_after_loop frames w Hshort) in Hen.
  set (os := fst (frame_outcomes frames w)) in *.
  set (w1 := snd (frame_outcomes frames w)) in *.
  set (embeddings := map fst (accepted os)) in *.
  set (metas := map snd (accepted os)) in *.
  destruct (len embeddings <? 5)%Z eqn:Hfew; [discriminate |].
  apply Z.ltb_ge in Hfew.
  destruct (save_enrollment embeddings metas w1) as [saved w2] eqn:Hsave.
  simpl in Hen. destruct saved as [e | []]; [discriminate |].
  unfold enrolled_response in Hen.
  injection Hen as _ Hcount Hmeta Herrs Hw. subst w2.
  assert (Hret : fst (save_enrollment embeddings metas w1) = inr tt)
    by now rewrite Hsave.
  destruct (save_returns _ _ _ Hret) as [He Hm].
  rewrite Hsave in He, Hm. simpl in He, Hm.
  assert (Hpart : (length (accepted os)
                   + length (error_messages 0 frames os) = length frames)%nat).
  { apply partition_count;
      [apply length_frame_outcomes | apply frame_outcomes_cases]. }
  repeat split.
  - lia.
  - subst. unfold len, embeddings, metas. now rewrite !length_map.
  - subst. unfold len, embeddings in *. rewrite length_map.
    destruct (error_messages 0 frames os); simpl in *; lia.
  - unfold is_enrolled. now rewrite He, Hm.
  - exists embeddings. unfold load_embeddings. rewrite He. simpl.
    split; [reflexivity | exact Hcount].
  - eexists. unfold load_metadata. rewrite Hm. simpl.
    split; [reflexivity | split; [exact Hcount | exact Hmeta]].
Qed.

End EnrollInvariants.


Section Endpoints.
Context `{Externals}.

Lemma verify_face_same_store image_data stored threshold w :
  same_store w (snd (verify_face image_data stored threshold w)).
Proof.
  unfold verify_face, verify_face_try, bind, ret.
  pose proof (process_frame_same_store image_data "verification" w) as Hs.
  destruct (process_frame image_data "verification" w) as [result w1].
  simpl in Hs.
  destruct (error result); [exact Hs |].
  destruct (embedding result); [| exact Hs].
  destruct (_cosine_similarity _ _); [exact Hs |].
  destruct (Numpy.max _); exact Hs.
Qed.

(** X17: the [/verify] handler never changes the store files, and when the
    store is not enrolled it answers 400 without doing anything else. *)
Theorem verify_never_writes (image_str : string) (w : world) :
  same_store w (snd (verify image_str w))
  /\ (exists_ (embeddings_file w) && exists_ (metadata_file w) = false ->
      verify image_str w
      = (HTTPException 400
           "No enrollment found. Please enroll a face first.", w)).
Proof.
  split; [| apply verify_not_enrolled].
  unfold verify, is_enrolled, load_embeddings, bind, ret.
  destruct (exists_ (embeddings_file w) && exists_ (metadata_file w));
    simpl; [| repeat split].
  destruct (b64decode (payload image_str)) as [e | image_data];
    [repeat split |].
  destruct (embeddings_file w) as [| | data] eqn:He;
    [repeat split | repeat split |].
  pose proof (verify_face_same_store image_data
                (Arr2 (npz_embeddings data)) 0.6%R w) as Hs.
  destruct (verify_face image_data (Arr2 (npz_embeddings data)) 0.6%R w)
    as [[[is_match similarity] message] w1].
  exact Hs.
Qed.

(** X18: with an unreadable embeddings file beside a metadata file the store
    counts as enrolled, [/verify] answers 500 "Failed to load stored
    embeddings" without processing the image, and [/status] reports
    enrolled without an embeddings count. *)
Theorem unreadable_embeddings_reported (image_str : string)
    (image_data : list Byte.byte) (w : world) :
  embeddings_file w = Unreadable ->
  exists_ (metadata_file w) = true ->
  b64decode (payload image_str) = inr image_data ->
  is_enrolled w = (true, w)
  /\ verify image_str w
     = (HTTPException 500 "Failed to load stored embeddings", w)
  /\ exists data,
       Admin.get_status w
       = (Admin.SuccessResponse "Status retrieved successfully" (Some data),
          w)
       /\ Admin.enrolled data = true
       /\ Admin.embeddings_count data = None.
Proof.
  intros He Hm Hd.
  unfold verify, Admin.get_status, is_enrolled, load_embeddings,
    load_metadata, bind, ret.
  rewrite He, Hm, Hd. simpl. rewrite He.
  split; [reflexivity |]. split; [reflexivity |].
  destruct (metadata_file w); simpl;
    (eexists; split; [reflexivity |]; split; reflexivity).
Qed.


(** X20: a store holding only one of its two files counts as not enrolled:
    delete answers 404 and leaves the file in place, [/verify] answers 400
    and [/status] reports not enrolled. *)
Theorem orphan_file_is_not_enrolled (image_str : string) (w : world) :
  orphaned w ->
  is_enrolled w = (false, w)
  /\ Admin.delete_enrollment w
     = (Admin.HTTPException 404 "No enrollment found to delete", w)
  /\ verify image_str w
     = (HTTPException 400
          "No enrollment found. Please enroll a face first.", w)
  /\ Admin.get_status w
     = (Admin.SuccessResponse "Status retrieved successfully"
          (Some {| Admin.enrolled := false;
                   Admin.embeddings_count := None;
                   Admin.metadata := None |}), w).
Proof.
  unfold orphaned, Admin.delete_enrollment, Admin.get_status, verify,
    is_enrolled, bind, ret.
  intros Horph.
  assert (Hno : exists_ (embeddings_file w) && exists_ (metadata_file w)
                = false).
  { destruct (exists_ (embeddings_file w)), (exists_ (metadata_file w));
      try reflexivity; now contradiction Horph. }
  rewrite Hno. simpl. repeat split.
Qed.

(** X21: after a successful [enroll], [/status] reports enrolled with the
    embeddings count and the metadata count both equal to the count of the
    enrollment response, and version "1.0". *)
Theorem status_after_enroll (frames : list FrameData) (w w' : world)
    (message : string) (count : Z) (metadata : list frame_metadata)
    (errs : option (list string)) :
  enroll frames w = (SuccessResponse message (EnrollData count metadata errs),
                     w') ->
  exists now,
    Admin.get_status w'
    = (Admin.SuccessResponse "Status retrieved successfully"
         (Some {| Admin.enrolled := true;
                  Admin.embeddings_count := Some count;
                  Admin.metadata :=
                    Some {| Admin.sm_version := "1.0";
                            Admin.sm_timestamp := now;
                            Admin.sm_count := count |} |}), w').
Proof.
  intros Hen.
  destruct (len frames <? 5)%Z eqn:Hshort.
  { unfold enroll in Hen. rewrite Hshort in Hen. discriminate. }
  apply Z.ltb_ge in Hshort.
  rewrite (enroll_after_loop frames w Hshort) in Hen.
  set (os := fst (frame_outcomes frames w)) in *.
  set (w1 := snd (frame_outcomes frames w)) in *.
  set (embeddings := map fst (accepted os)) in *.
  set (metas := map snd (accepted os)) in *.
  destruct (len embeddings <? 5)%Z; [discriminate |].
  destruct (save_enrollment embeddings metas w1) as [saved w2] eqn:Hsave.
  simpl in Hen. destruct saved as [e | []]; [discriminate |].
  unfold enrolled_response in Hen.
  injection Hen as _ Hcount _ _ Hw. subst w2.
  assert (Hret : fst (save_enrollment embeddings metas w1) = inr tt)
    by now rewrite Hsave.
  destruct (save_returns _ _ _ Hret) as [He Hm].
  rewrite Hsave in He, Hm. simpl in He, Hm.
  exists (isoformat (S (clock w1))).
  unfold Admin.get_status, is_enrolled, load_embeddings, load_metadata,
    bind, ret.
  rewrite He, Hm. simpl. rewrite He, Hm. simpl.
  unfold Admin.array_len. now rewrite Hcount.
Qed.

End Endpoints.

Lemma split_comma_no_comma (s : string) :
  has_comma s = false -> split_comma s = [s].
Proof.
  induction s as [|c s IH]; simpl; intros Hs; [reflexivity |].
  apply orb_false_iff in Hs. destruct Hs as [Hc Hs].
  rewrite Hc, (IH Hs). reflexivity.
Qed.

Lemma split_comma_prefix (prefix s : string) :
  has_comma prefix = false ->
  split_comma (prefix ++ String comma s) = prefix :: split_comma s.
Proof.
  induction prefix as [|c p IH]; simpl; intros Hp; [reflexivity |].
  apply orb_false_iff in Hp. destruct Hp as [Hc Hp].
  rewrite Hc, (IH Hp). reflexivity.
Qed.

Lemma has_comma_app (prefix s : string) :
  has_comma (prefix ++ String comma s) = true.
Proof.
  induction prefix as [|c p IH]; simpl; [reflexivity |].
  rewrite IH. apply orb_true_r.
Qed.

(** X22: an image string without a comma is its own payload; behind a prefix
    without a comma the payload is what follows the first comma; and whatever
    follows a second comma is dropped. *)
Theorem payload_data_uri (prefix body rest : string) :
  has_comma prefix = false ->
  has_comma body = false ->
  payload body = body
  /\ payload (prefix ++ "," ++ body) = body
  /\ payload (prefix ++ "," ++ body ++ "," ++ rest) = body.
Proof.
  intros Hp Hb. unfold payload.
  change ("," ++ body ++ "," ++ rest) with (String comma (body ++ String comma rest)).
  change ("," ++ body) with (String comma body).
  repeat split.
  - now rewrite Hb.
  - rewrite has_comma_app, (split_comma_prefix _ _ Hp),
      (split_comma_no_comma _ Hb). reflexivity.
  - rewrite has_comma_app, (split_comma_prefix _ _ Hp),
      (split_comma_prefix _ _ Hb). reflexivity.
Qed.

Lemma payload_data_uri_witness :
  payload "ab" = "ab"
  /\ payload ("data:image/jpeg;base64" ++ "," ++ "ab") = "ab"
  /\ payload ("data:image/jpeg;base64" ++ "," ++ "ab" ++ "," ++ "cd") = "ab".
Proof.
  apply (payload_data_uri "data:image/jpeg;base64" "ab" "cd"); reflexivity.
Defined.

Local Open Scope R_scope.

Section PairwiseFacts.
Context `{FloatArithmetic}.

Lemma compute_cosine_similarity_entries (a : list (list R)) :
  compute_cosine_similarity a
  = map (fun r => map (fun c => cosine r c) a) a.
Proof.
  unfold compute_cosine_similarity, dot_transposed.
  rewrite map_map. apply map_ext. intros r.
  rewrite map_map. reflexivity.
Qed.

Lemma entry_pairwise (a : list (list R)) (i j : nat) :
  entry (compute_cosine_similarity a) i j
  = if (i <? length a)%nat && (j <? length a)%nat
    then cosine (nth i a []) (nth j a [])
    else 0.
Proof.
  rewrite compute_cosine_similarity_entries. unfold entry.
  destruct (Nat.ltb_spec i (length a)) as [Hi | Hi]; simpl.
  - rewrite (nth_indep _ [] ((fun r => map (fun c => cosine r c) a) []))
      by now rewrite length_map.
    rewrite (map_nth (fun r => map (fun c => cosine r c) a)).
    destruct (Nat.ltb_spec j (length a)) as [Hj | Hj].
    + rewrite (nth_indep _ 0 ((fun c => cosine (nth i a []) c) []))
        by now rewrite length_map.
      now rewrite (map_nth (fun c => cosine (nth i a []) c)).
    + apply nth_overflow. now rewrite length_map.
  - rewrite (nth_overflow (map _ a)) by now rewrite length_map.
    now destruct j.
Qed.

(** X23: the matrix of [compute_cosine_similarity] is symmetric. *)
Theorem pairwise_symmetric (a : list (list R)) (i j : nat) :
  entry (compute_cosine_similarity a) i j
  = entry (compute_cosine_similarity a) j i.
Proof.
  rewrite !entry_pairwise, (andb_comm (j <? length a)%nat).
  destruct ((i <? length a)%nat && (j <? length a)%nat).
  - apply cosine_sym.
  - reflexivity.
Qed.

Lemma Forall2_map_self {A B} (P : A -> B -> Prop) (f : A -> B) (l : list A) :
  (forall x, In x l -> P x (f x)) -> Forall2 P l (map f l).
Proof.
  induction l as [|x l IH]; intros Hp; simpl; constructor.
  - apply Hp. now left.
  - apply IH. intros y Hy. apply Hp. now right.
Qed.

(** X24: on rows of one length, row i of [compute_cosine_similarity] is the
    vector [_cosine_similarity] returns for row i against the whole
    matrix. *)
Theorem pairwise_matches_verification (a : list (list R)) (D : nat) :
  Forall (fun row => length row = D) a ->
  Forall2 (fun row similarities =>
             _cosine_similarity row (Arr2 a) = inr (Vector similarities))
    a (compute_cosine_similarity a).
Proof.
  intros Hrect. rewrite compute_cosine_similarity_entries.
  assert (Hrow : forall row, In row a ->
            _cosine_similarity row (Arr2 a)
            = inr (Vector (map (fun c => cosine row c) a))).
  { intros row Hin. rewrite Forall_forall in Hrect.
    rewrite (dot21_rows a row).
    - do 2 f_equal. apply map_ext. intros c. apply cosine_sym.
    - apply Forall_forall. intros r Hr.
      now rewrite (Hrect r Hr), (Hrect row Hin). }
  apply Forall2_map_self. exact Hrow.
Qed.

End PairwiseFacts.

Local Close Scope R_scope.

(** X25: on the same store directory [load_enrollment_data] returns the
    embeddings that [load_embeddings] returns, and the metadata that
    [load_metadata] returns when the embeddings could be loaded, none
    otherwise. *)
Theorem load_enrollment_data_agrees (w : world) :
  load_enrollment_data w
  = ((fst (load_embeddings w),
      match fst (load_embeddings w) with
      | Some _ => fst (load_metadata w)
      | None => None
      end), w).
Proof.
  unfold load_enrollment_data, load_embeddings, load_metadata.
  destruct (embeddings_file w), (metadata_file w); reflexivity.
Qed.

Local Open Scope R_scope.

Lemma norm_unit : norm [1; 0] = 1.
Proof.
  unfold norm. simpl.
  replace (1 * 1 + (0 * 0 + 0)) with 1 by ring. apply sqrt_1.
Qed.

Lemma cosine_unit :
  cosine (H := exact_arithmetic) [1; 0] [1; 0]
  = 1 / (1 + epsilon) * (1 / (1 + epsilon)).
Proof.
  unfold cosine, div_scalar. simpl. rewrite norm_unit. field.
  pose proof epsilon_pos. lra.
Qed.

Lemma example_match :
  verify_face (H := collaborators) good_jpeg (Arr2 [[1; 0]])
    default_threshold empty_store
  = ((true, cosine (H := exact_arithmetic) [1; 0] [1; 0],
      "Face verified with similarity: " ++ "1.0000"),
     snd (process_frame (H := collaborators) good_jpeg "verification"
            empty_store)).
Proof.
  unfold verify_face, verify_face_try, bind, ret.
  destruct (process_frame (H := collaborators) good_jpeg "verification"
              empty_store) as [result w1] eqn:Hp.
  assert (He : error result = None)
    by (apply (f_equal (fun p => error (fst p))) in Hp; now simpl in Hp).
  assert (Hq : embedding result = Some [1; 0])
    by (apply (f_equal (fun p => embedding (fst p))) in Hp;
        now simpl in Hp).
  rewrite He, Hq.
  change (@arithmetic collaborators) with exact_arithmetic.
  rewrite (dot21_rows [[1; 0]] [1; 0]) by (repeat constructor).
  cbn [map Numpy.max fold_left].
  assert (Hm : Rgeb (cosine (H := exact_arithmetic) [1; 0] [1; 0])
                 default_threshold = true).
  { apply Rgeb_true_iff. rewrite cosine_unit.
    unfold default_threshold, epsilon.
    assert (Hq' : 1 / (1 + 1e-8) = 1 - 1e-8 / (1 + 1e-8)) by (field; lra).
    assert (Hr : 0 < 1e-8 / (1 + 1e-8) <= 1e-8).
    { split.
      - apply Rdiv_lt_0_compat; lra.
      - apply Rle_trans with (1e-8 / 1); [| lra].
        unfold Rdiv. apply Rmult_le_compat_l; [lra |].
        apply Rinv_le_contravar; lra. }
    rewrite Hq'. nra. }
  rewrite Hm. reflexivity.
Qed.

Lemma verify_face_threshold_monotone_witness :
  verify_face (H := collaborators) good_jpeg (Arr2 [[1; 0]]) 0.5 empty_store
  = ((true, cosine (H := exact_arithmetic) [1; 0] [1; 0],
      "Face verified with similarity: " ++ "1.0000"),
     snd (process_frame (H := collaborators) good_jpeg "verification"
            empty_store)).
Proof.
  apply (verify_face_threshold_monotone (H := collaborators) good_jpeg
           (Arr2 [[1; 0]]) default_threshold 0.5 empty_store _ _ _
           example_match).
  unfold default_threshold. lra.
Defined.

Lemma verify_face_row_order_witness :
  verify_face (H := collaborators) good_jpeg (Arr2 [[1; 0]; [0; 1]])
    default_threshold empty_store
  = verify_face (H := collaborators) good_jpeg (Arr2 [[0; 1]; [1; 0]])
      default_threshold empty_store.
Proof.
  apply (verify_face_row_order (H := collaborators)).
  apply perm_swap.
Defined.

Lemma verify_face_bad_store_witness :
  exists reason,
    verify_face (H := collaborators) good_jpeg (Arr2 []) default_threshold
      empty_store
    = ((false, 0, "Verification error: " ++ reason),
       snd (process_frame (H := collaborators) good_jpeg "verification"
              empty_store)).
Proof.
  apply (verify_face_bad_store (H := collaborators) good_jpeg []
           default_threshold empty_store _
           (fst (process_frame (H := collaborators) good_jpeg "verification"
                   empty_store)) [1; 0]).
  - reflexivity.
  - reflexivity.
  - reflexivity.
  - left. reflexivity.
Defined.

Lemma pairwise_matches_verification_witness :
  Forall2 (fun row similarities =>
             _cosine_similarity (H := exact_arithmetic) row (Arr2 five_rows)
             = inr (Vector similarities))
    five_rows (compute_cosine_similarity (H := exact_arithmetic) five_rows).
Proof.
  apply (pairwise_matches_verification (H := exact_arithmetic) five_rows 2).
  repeat constructor.
Defined.

Local Close Scope R_scope.

Lemma process_frame_accepts_iff_witness :
  (exists v,
     embedding (fst (process_frame (H := collaborators) good_jpeg "front"
                       empty_store)) = Some v)
  <-> exists img face raw,
        acceptable (H := collaborators) good_jpeg img face raw.
Proof.
  apply (process_frame_accepts_iff (H := collaborators) good_jpeg "front"
           empty_store).
  intros img face Hdec Hrep. simpl in Hdec. injection Hdec as <-.
  simpl in Hrep. injection Hrep as <-.
  split; apply Z.leb_le; reflexivity.
Defined.

Lemma process_frame_accepted_fields_witness :
  exists img face raw,
    acceptable (H := collaborators) good_jpeg img face raw
    /\ fst (process_frame (H := collaborators) good_jpeg "front" empty_store)
       = accepted_result (H := collaborators) img face raw "front"
           (@isoformat collaborators (clock empty_store))
    /\ [1%R; 0%R] = map (@float32 collaborators) raw
    /\ confidence
         (fst (process_frame (H := collaborators) good_jpeg "front"
                 empty_store))
       = face_ratio
           (fst (process_frame (H := collaborators) good_jpeg "front"
                   empty_store))
    /\ (0.05 <= inject_Z (box_area face)
                / inject_Z (img_width img * img_height img))%Q.
Proof.
  apply (process_frame_accepted_fields (H := collaborators) good_jpeg "front"
           empty_store [1%R; 0%R]).
  reflexivity.
Defined.

Lemma process_frame_missing_box_witness :
  let result :=
    fst (process_frame (H := collaborators_finding face_without_box)
           good_jpeg "front" empty_store) in
  embedding result = None
  /\ error result
     = Some ("Face too small (ratio: "
             ++ @format_4f collaborators
                  (inject_Z 0
                   / inject_Z (img_width good_image
                               * img_height good_image))
             ++ "). Minimum 0.05 required").
Proof.
  apply (process_frame_missing_box
           (H := collaborators_finding face_without_box) good_jpeg "front"
           empty_store good_image face_without_box [1%R; 0%R]).
  - reflexivity.
  - simpl. lia.
  - simpl. lia.
  - reflexivity.
  - reflexivity.
  - left. reflexivity.
Defined.

Lemma process_frame_missing_embedding_witness :
  let out :=
    process_frame (H := collaborators_finding face_without_embedding)
      good_jpeg "front" empty_store in
  embedding (fst out) = None
  /\ error (fst out)
     = Some "Unexpected error processing frame: 'embedding'"
  /\ log (snd out) = (log empty_store ++ [EvRepresent good_image])%list.
Proof.
  apply (process_frame_missing_embedding
           (H := collaborators_finding face_without_embedding) good_jpeg
           "front" empty_store good_image face_without_embedding).
  - reflexivity.
  - simpl. lia.
  - simpl. lia.
  - reflexivity.
  - reflexivity.
Defined.

Lemma save_returns_then_loads_witness :
  let w' := snd (save_enrollment (H := collaborators) five_rows five_meta
                   empty_store) in
  is_enrolled w' = (true, w')
  /\ load_embeddings w' = (Some (Arr2 five_rows), w')
  /\ load_metadata w'
     = (Some (new_doc five_rows five_meta
                (@isoformat collaborators (S (clock empty_store)))),
        w').
Proof.
  apply (save_returns_then_loads (H := collaborators) five_rows five_meta
           empty_store).
  reflexivity.
Defined.

Lemma enroll_success_invariant_witness :
  let w' := snd (enroll (H := collaborators) five_frames empty_store) in
  let metadata :=
    map snd (accepted (fst (frame_outcomes (H := collaborators) five_frames
                              empty_store))) in
  (5 <= 5)%Z
  /\ 5%Z = len metadata
  /\ (5 + len (reported_errors None) = len five_frames)%Z
  /\ is_enrolled w' = (true, w')
  /\ (exists rows, load_embeddings w' = (Some (Arr2 rows), w')
                   /\ len rows = 5%Z)
  /\ (exists doc, load_metadata w' = (Some doc, w')
                  /\ md_count doc = 5%Z /\ md_frames doc = metadata).
Proof.
  apply (enroll_success_invariant (H := collaborators) five_frames
           empty_store _ "Successfully enrolled 5 face embeddings").
  vm_compute. reflexivity.
Defined.

Lemma status_after_enroll_witness :
  exists now,
    Admin.get_status (snd (enroll (H := collaborators) five_frames empty_store))
    = (Admin.SuccessResponse "Status retrieved successfully"
         (Some {| Admin.enrolled := true;
                  Admin.embeddings_count := Some 5%Z;
                  Admin.metadata :=
                    Some {| Admin.sm_version := "1.0";
                            Admin.sm_timestamp := now;
                            Admin.sm_count := 5%Z |} |}),
       snd (enroll (H := collaborators) five_frames empty_store)).
Proof.
  apply (status_after_enroll (H := collaborators) five_frames empty_store _
           "Successfully enrolled 5 face embeddings" 5%Z
           (map snd (accepted (fst (frame_outcomes (H := collaborators)
                                      five_frames empty_store))))
           None).
  vm_compute. reflexivity.
Defined.

Lemma unreadable_embeddings_reported_witness :
  is_enrolled corrupt_store = (true, corrupt_store)
  /\ verify (H := collaborators) "ab" corrupt_store
     = (HTTPException 500 "Failed to load stored embeddings", corrupt_store)
  /\ exists data,
       Admin.get_status corrupt_store
       = (Admin.SuccessResponse "Status retrieved successfully" (Some data),
          corrupt_store)
       /\ Admin.enrolled data = true
       /\ Admin.embeddings_count data = None.
Proof.
  apply (unreadable_embeddings_reported (H := collaborators) "ab"
           (list_byte_of_string "ab") corrupt_store); reflexivity.
Defined.


Lemma orphan_file_is_not_enrolled_witness :
  is_enrolled orphan_store = (false, orphan_store)
  /\ Admin.delete_enrollment orphan_store
     = (Admin.HTTPException 404 "No enrollment found to delete", orphan_store)
  /\ verify (H := collaborators) "ab" orphan_store
     = (HTTPException 400
          "No enrollment found. Please enroll a face first.", orphan_store)
  /\ Admin.get_status orphan_store
     = (Admin.SuccessResponse "Status retrieved successfully"
          (Some {| Admin.enrolled := false;
                   Admin.embeddings_count := None;
                   Admin.metadata := None |}), orphan_store).
Proof.
  apply (orphan_file_is_not_enrolled (H := collaborators) "ab" orphan_store).
  unfold orphaned. simpl. discriminate.
Defined.
